(** * ward_map.py: the Block 6 ward map script

    A shallow embedding of [scripts/ward_map.py] and the properties its
    specification states about it.

    The script is a straight line of calls into geopandas, shapely and folium.
    Its own logic is modelled as written: the Python variables and the objects
    they are bound to (a store, so that copies and in-place updates can be told
    apart), the column cast and rename of the clean-up, the two boolean
    selections, the guarded reprojection, the map centre and the files written.
    What the libraries compute on single values (the integer numpy's cast gives
    a cell, the coordinates pyproj gives a geometry, the union and centroid GEOS
    gives) is not in the repository: those functions are parameters of the
    development, with the few facts used about them stated as hypotheses. *)

From Stdlib Require Import ZArith Ascii String Floats.SpecFloat.
From stdpp Require Import base option list strings gmap sorting.

Local Open Scope Z_scope.
Local Open Scope string_scope.
Local Open Scope list_scope.

(** ** Data model *)

(** A coordinate reference system: what the script looks at is the EPSG code
    [crs.to_epsg()] reports, which is absent for a system without one. *)
Record CRS := { srs : string; to_epsg : option Z }.

(** Any error the script lets escape.  Nothing is caught in the source, so any
    of these ends the run. *)
Inductive exn : Type :=
  | NameError (x : string)        (* a variable read before being bound *)
  | KeyError (col : string)       (* [frame[col]] for a column that does not exist *)
  | CastError (pos : nat)         (* [astype(int)] rejecting the value at a position:
                                     Python's TypeError, ValueError or
                                     OverflowError, by the value *)
  | ReprojectError (msg : string) (* [to_crs] failing *)
  | CentreError                   (* no latitude and longitude for the map centre *)
  | MarkerError (row : Z).        (* no latitude and longitude for a label *)

(** A cell of an attribute table.  [Geometry] is the geometry type of
    shapely, opaque to the script. *)
Inductive value (Geometry : Type) : Type :=
  | VInt (z : Z)
  | VFloat (f : spec_float)
  | VStr (s : string)
  | VNone
  | VGeom (g : Geometry).
Arguments VInt {Geometry} z.
Arguments VFloat {Geometry} f.
Arguments VStr {Geometry} s.
Arguments VNone {Geometry}.
Arguments VGeom {Geometry} g.

(** A record of a feature collection: its index label and its cells, one per
    column, in column order. *)
Record Row (Geometry : Type) := {
  label : Z;
  cells : list (value Geometry)
}.
Arguments label {Geometry} r.
Arguments cells {Geometry} r.

(** A [GeoDataFrame]: column labels, records in order, and the CRS tag. *)
Record GeoDataFrame (Geometry : Type) := {
  columns : list string;
  rows : list (Row Geometry);
  crs : option CRS
}.
Arguments columns {Geometry} g.
Arguments rows {Geometry} g.
Arguments crs {Geometry} g.

(** *** Library functions taken as parameters *)

(** What the script asks of numpy, geopandas and shapely on single values:
    - [as_int v]: the integer the cast [astype(int)] gives a cell, none when
      the cast rejects it;
    - [to_crs epsg g]: geopandas' [g.to_crs(epsg=...)], a new frame or an error;
    - [unary_union], [centroid]: shapely's;
    - [lat_lon p]: the pair [p.y, p.x] as folium accepts it for a location,
      none for a point without coordinates. *)
Class Libraries (Geometry : Type) := {
  as_int : value Geometry → option Z;
  to_crs : Z → GeoDataFrame Geometry → exn + GeoDataFrame Geometry;
  unary_union : list Geometry → Geometry;
  centroid : Geometry → Geometry;
  lat_lon : Geometry → option (spec_float * spec_float)
}.

(** ** A stand-in for the libraries

    Enough of numpy, geopandas and shapely to run the script on concrete
    collections.  A geometry is the list of its vertices, on an integer grid. *)

Definition geometry : Type := list (Z * Z).

Definition digit (c : ascii) : option Z :=
  let n := Z.of_N (N_of_ascii c) in
  if (48 <=? n)%Z && (n <=? 57)%Z then Some (n - 48) else None.

(** Blank characters, which [int()] skips on both sides of a literal. *)
Definition is_space (c : ascii) : bool :=
  let n := Z.of_N (N_of_ascii c) in
  (9 <=? n)%Z && (n <=? 13)%Z || (n =? 32)%Z.

Fixpoint lstrip (cs : list ascii) : list ascii :=
  match cs with
  | c :: cs' => if is_space c then lstrip cs' else cs
  | [] => []
  end.

Definition strip (cs : list ascii) : list ascii :=
  reverse (lstrip (reverse (lstrip cs))).

(** The sign of a literal, true for minus, and what follows it. *)
Definition signed (cs : list ascii) : bool * list ascii :=
  match cs with
  | "-"%char :: cs' => (true, cs')
  | "+"%char :: cs' => (false, cs')
  | _ => (false, cs)
  end.

(** Decimal digits in groups separated by single underscores, as in "429" or
    "1_000"; [after_digit] tells whether the character before is a digit. *)
Fixpoint grouped (after_digit : bool) (cs : list ascii) : bool :=
  match cs with
  | [] => after_digit
  | c :: cs' =>
      match digit c with
      | Some _ => grouped true cs'
      | None => Ascii.eqb c "_"%char && after_digit && grouped false cs'
      end
  end.

(** The number the digits of a text write in base ten. *)
Definition digits_value (cs : list ascii) : Z :=
  foldl (λ acc c, match digit c with Some d => 10 * acc + d | None => acc end)
        0 cs.

(** Text that [int()] reads: blanks, an optional sign, grouped digits, blanks. *)
Definition int_literal (s : string) : bool :=
  grouped false (signed (strip (list_ascii_of_string s))).2.

Definition literal_value (s : string) : Z :=
  let '(minus, body) := signed (strip (list_ascii_of_string s)) in
  if minus then - digits_value body else digits_value body.

Definition finite (f : spec_float) : bool :=
  match f with
  | S754_zero _ | S754_finite _ _ _ => true
  | S754_infinity _ | S754_nan => false
  end.

(** A finite float truncated towards zero. *)
Definition float_trunc (f : spec_float) : Z :=
  match f with
  | S754_finite sign m e =>
      let a := Z.shiftl (Zpos m) e in if sign then - a else a
  | _ => 0
  end.

(** A numeric cell: an integer, a finite float, or text that writes an
    integer.  A missing value, a geometry, a float that is infinite or not a
    number and any other text are not. *)
Definition numeric {Geometry} (v : value Geometry) : bool :=
  match v with
  | VInt _ => true
  | VFloat f => finite f
  | VStr s => int_literal s
  | VNone | VGeom _ => false
  end.

(** The integer a numeric cell stands for. *)
Definition integer_of {Geometry} (v : value Geometry) : Z :=
  match v with
  | VInt z => z
  | VFloat f => float_trunc f
  | VStr s => literal_value s
  | VNone | VGeom _ => 0
  end.

(** The range of the 64-bit integers [astype(int)] produces. *)
Definition int64 (z : Z) : bool := (- 2 ^ 63 <=? z)%Z && (z <? 2 ^ 63)%Z.

(** The cast of [astype(int)] on a cell: Python's [int()] followed by the
    conversion to a 64-bit integer.  A cell that is not numeric is rejected
    (TypeError or ValueError), and so is a number out of range
    (OverflowError). *)
Definition py_int {Geometry} (v : value Geometry) : option Z :=
  if numeric v && int64 (integer_of v) then Some (integer_of v) else None.



(** Reprojection on the stand-in: the CRS tag is replaced and the grid kept;
    a frame without a CRS is refused, as geopandas refuses it. *)
Definition retag (epsg : Z) (g : GeoDataFrame geometry)
    : exn + GeoDataFrame geometry :=
  match crs g with
  | None => inl (ReprojectError "Cannot transform naive geometries")
  | Some _ =>
      inr {| columns := columns g; rows := rows g;
             crs := Some {| srs := "EPSG"; to_epsg := Some epsg |} |}
  end.

Definition float_of_Z (z : Z) : spec_float :=
  match z with
  | Z0 => S754_zero false
  | Zpos p => S754_finite false p 0
  | Zneg p => S754_finite true p 0
  end.

(** The mean of the vertices, a one-vertex geometry; nothing for no vertex. *)
Definition vertex_mean (g : geometry) : geometry :=
  match g with
  | [] => []
  | _ =>
      let n := Z.of_nat (length g) in
      [(foldr Z.add 0 (fst <$> g) / n, foldr Z.add 0 (snd <$> g) / n)]
  end.

Definition vertex_lat_lon (g : geometry) : option (spec_float * spec_float) :=
  match g with
  | [(x, y)] => Some (float_of_Z y, float_of_Z x)
  | _ => None
  end.

#[global] Instance grid : Libraries geometry := {|
  as_int := py_int;
  to_crs := retag;
  unary_union := mjoin;
  centroid := vertex_mean;
  lat_lon := vertex_lat_lon
|}.

(** *** Sample collections *)

Definition utm : CRS := {| srs := "EPSG:32643"; to_epsg := Some 32643 |}.

Definition square (x y : Z) : geometry :=
  [(x, y); (x + 2, y); (x + 2, y + 2); (x, y + 2)].

(** Five wards read from a shapefile whose identifier column is text. *)
Definition sample : GeoDataFrame geometry := {|
  columns := ["Ward_No"; "SUM_Final_"; "geometry"];
  rows := [
    {| label := 0; cells := [VStr "428"; VInt 1500; VGeom (square 0 0)] |};
    {| label := 1; cells := [VStr "429"; VInt 2100; VGeom (square 2 0)] |};
    {| label := 2; cells := [VStr "431"; VInt 1800; VGeom (square 4 0)] |};
    {| label := 3; cells := [VStr "12"; VInt 900; VGeom (square 6 0)] |};
    {| label := 4; cells := [VStr "434"; VInt 2500; VGeom (square 8 0)] |} ];
  crs := Some utm
|}.

(** The same wards without the population column. *)
Definition sample_no_population : GeoDataFrame geometry := {|
  columns := ["Ward_No"; "geometry"];
  rows := [
    {| label := 0; cells := [VInt 428; VGeom (square 0 0)] |};
    {| label := 1; cells := [VInt 429; VGeom (square 2 0)] |};
    {| label := 2; cells := [VInt 12; VGeom (square 4 0)] |} ];
  crs := Some utm
|}.

(** A collection with an identifier that is not a number. *)
Definition sample_bad_ward : GeoDataFrame geometry := {|
  columns := ["Ward_No"; "geometry"];
  rows := [
    {| label := 0; cells := [VInt 428; VGeom (square 0 0)] |};
    {| label := 1; cells := [VStr "n/a"; VGeom (square 2 0)] |} ];
  crs := Some utm
|}.

(** No ward of Block 6. *)
Definition sample_no_block6 : GeoDataFrame geometry := {|
  columns := ["Ward_No"; "geometry"];
  rows := [
    {| label := 0; cells := [VInt 1; VGeom (square 0 0)] |};
    {| label := 1; cells := [VInt 2; VGeom (square 2 0)] |} ];
  crs := Some utm
|}.

(** Wards 1 to 600 without 433 and 434: four wards of Block 6 are present
    and two are absent. *)
Definition wards_1_600 : GeoDataFrame geometry := {|
  columns := ["Ward_No"; "geometry"];
  rows := (λ z, {| label := z - 1; cells := [VInt z; VGeom (square z 0)] |})
          <$> filter (λ z, z ≠ 433 ∧ z ≠ 434) (seqZ 1 600);
  crs := Some utm
|}.

(** Wards with a column "Population" and no "SUM_Final_". *)
Definition sample_population : GeoDataFrame geometry := {|
  columns := ["Ward_No"; "Population"; "geometry"];
  rows := [
    {| label := 0; cells := [VInt 428; VInt 1500; VGeom (square 0 0)] |};
    {| label := 1; cells := [VInt 429; VInt 2100; VGeom (square 2 0)] |} ];
  crs := Some utm
|}.

(** Wards with both "SUM_Final_" and "Population". *)
Definition sample_both : GeoDataFrame geometry := {|
  columns := ["Ward_No"; "SUM_Final_"; "Population"; "geometry"];
  rows := [
    {| label := 0; cells := [VInt 428; VInt 1500; VInt 1400; VGeom (square 0 0)] |};
    {| label := 1; cells := [VInt 429; VInt 2100; VInt 2000; VGeom (square 2 0)] |} ];
  crs := Some utm
|}.

(** The five wards of [sample] read from a shapefile without a projection
    file: the collection has no CRS. *)
Definition sample_naive : GeoDataFrame geometry := {|
  columns := columns sample;
  rows := rows sample;
  crs := None
|}.



Section WardMap.

Context {Geometry : Type} {libs : Libraries Geometry}.

Local Abbreviation value := (value Geometry).
Local Abbreviation Row := (Row Geometry).
Local Abbreviation GeoDataFrame := (GeoDataFrame Geometry).

(** Every record has one cell per column. *)
Definition wf_frame (g : GeoDataFrame) : Prop :=
  Forall (λ r, length (cells r) = length (columns g)) (rows g).

(** ** Frame operations (pandas) *)

(** Position of a column label: the first column carrying it. *)
Definition col_pos (name : string) (cols : list string) : option nat :=
  fst <$> list_find (λ c, c = name) cols.

(** The cell of a record at a column position; a record too short reads as a
    missing value. *)
Definition cell_at (i : nat) (r : Row) : value := default VNone (cells r !! i).

(** [g[name]]: the column as a sequence of values, in record order. *)
Definition getitem (g : GeoDataFrame) (name : string) : exn + list value :=
  match col_pos name (columns g) with
  | Some i => inr (cell_at i <$> rows g)
  | None => inl (KeyError name)
  end.

(** [g.columns]: membership test used by line 23. *)
Definition has_column (g : GeoDataFrame) (name : string) : bool :=
  bool_decide (name ∈ columns g).

(** [series.astype(int)]: every value is cast, the first rejected one raises. *)
Fixpoint astype_int_from (pos : nat) (s : list value) : exn + list Z :=
  match s with
  | [] => inr []
  | v :: s' =>
      match as_int v with
      | None => inl (CastError pos)
      | Some z =>
          match astype_int_from (S pos) s' with
          | inl e => inl e
          | inr zs => inr (z :: zs)
          end
      end
  end.

Definition astype_int (s : list value) : exn + list Z := astype_int_from 0 s.

(** [g[name] = series]: overwrite the column when it exists, append it when it
    does not.  The series is aligned with the records by position. *)
Definition set_cell (i : nat) (r : Row) (v : value) : Row :=
  {| label := label r; cells := <[i := v]> (cells r) |}.

Definition add_cell (r : Row) (v : value) : Row :=
  {| label := label r; cells := cells r ++ [v] |}.

Definition setitem (g : GeoDataFrame) (name : string) (s : list value) : GeoDataFrame :=
  match col_pos name (columns g) with
  | Some i =>
      {| columns := columns g; rows := zip_with (set_cell i) (rows g) s; crs := crs g |}
  | None =>
      {| columns := columns g ++ [name]; rows := zip_with add_cell (rows g) s; crs := crs g |}
  end.

(** [g[name] = scalar]: the scalar is broadcast to every record. *)
Definition setitem_scalar (g : GeoDataFrame) (name : string) (v : value) : GeoDataFrame :=
  setitem g name (replicate (length (rows g)) v).

(** [g.rename(columns={old: new})]: a new frame with the labels replaced. *)
Definition rename (g : GeoDataFrame) (old new : string) : GeoDataFrame :=
  {| columns := (λ c, if decide (c = old) then new else c) <$> columns g;
     rows := rows g; crs := crs g |}.

(** [series.isin(values)] on the integer column the cast leaves: a cell matches
    when it is one of the listed integers. *)
Definition isin (values : list Z) (s : list value) : list bool :=
  (λ v, match v with VInt z => bool_decide (z ∈ values) | _ => false end) <$> s.

(** The integers of an integer column. *)
Definition ints (s : list value) : list Z :=
  omap (λ v, match v with VInt z => Some z | _ => None end) s.

(** [g[mask]]: the records whose mask entry is true, in order. *)
Fixpoint select_rows (rs : list Row) (mask : list bool) : list Row :=
  match rs, mask with
  | r :: rs', b :: mask' =>
      if b then r :: select_rows rs' mask' else select_rows rs' mask'
  | _, _ => []
  end.

Definition select (g : GeoDataFrame) (mask : list bool) : GeoDataFrame :=
  {| columns := columns g; rows := select_rows (rows g) mask; crs := crs g |}.

(** [g.geometry]: the geometries of the records; records without one are
    skipped by the union. *)
Definition geometry_of (g : GeoDataFrame) (r : Row) : option Geometry :=
  i ← col_pos "geometry" (columns g);
  match cell_at i r with VGeom x => Some x | _ => None end.

Definition geometries (g : GeoDataFrame) : list Geometry :=
  omap (geometry_of g) (rows g).

(** ** The folium map and what the script leaves behind *)

(** A child of the map, in the order added.  The fixed styling constants of
    the two layers play no part in what follows and are left out. *)
Inductive child : Type :=
  | GeoJson (name : string) (data : GeoDataFrame) (tooltip_fields : list string)
  | Marker (location : spec_float * spec_float) (text : value)
  | LayerControl.

Record FoliumMap := {
  location : spec_float * spec_float;
  zoom_start : Z;
  tiles : string;
  children : list child
}.

Inductive printed : Type :=
  | PColumns (cols : list string)
  | PCRS (c : option CRS)
  | PWards (ids : list Z)
  | PSaved (what path : string).

(** What a run does to the outside world, oldest first. *)
Inductive effect : Type :=
  | Print (line : printed)
  | SaveMap (path : string) (m : FoliumMap)
  | ToFile (path : string) (g : GeoDataFrame)
  | Mkdir (path : string).

(** An output file or directory, as opposed to a console line. *)
Definition is_output (e : effect) : bool :=
  match e with Print _ => false | _ => true end.

(** ** Store and control *)

(** Frames are objects: variables hold references, and two variables may hold
    the same one.  [heap] maps references to frames, [globals] the script's
    variables to references. *)
Definition loc := nat.

Record State := {
  heap : gmap loc GeoDataFrame;
  next : loc;
  globals : gmap string loc;
  trace : list effect
}.

Definition init : State :=
  {| heap := ∅; next := 0%nat; globals := ∅; trace := [] |}.

(** A statement either completes or raises; either way the state reached is
    kept, so that what was written before an error can be read off. *)
Inductive outcome (A : Type) : Type :=
  | Done (a : A) (s : State)
  | Raised (e : exn) (s : State).
#[global] Arguments Done {A} a s.
#[global] Arguments Raised {A} e s.

Definition M (A : Type) : Type := State → outcome A.

#[global] Instance M_ret : MRet M := λ A a s, Done a s.
#[global] Instance M_bind : MBind M := λ A B k m s,
  match m s with
  | Done a s' => k a s'
  | Raised e s' => Raised e s'
  end.

Definition raise {A} (e : exn) : M A := λ s, Raised e s.

Definition lift {A} (r : exn + A) : M A :=
  match r with inl e => raise e | inr a => mret a end.

(** A new object. *)
Definition alloc (g : GeoDataFrame) : M loc := λ s,
  Done (next s)
    {| heap := <[next s := g]> (heap s); next := S (next s);
       globals := globals s; trace := trace s |}.

(** In-place update of an object. *)
Definition store (l : loc) (g : GeoDataFrame) : M unit := λ s,
  Done tt {| heap := <[l := g]> (heap s); next := next s;
             globals := globals s; trace := trace s |}.

(** [x = ...]: (re)binding a variable. *)
Definition assign (x : string) (l : loc) : M unit := λ s,
  Done tt {| heap := heap s; next := next s;
             globals := <[x := l]> (globals s); trace := trace s |}.

Definition var (x : string) : M loc := λ s,
  match globals s !! x with
  | Some l => Done l s
  | None => Raised (NameError x) s
  end.

Definition deref (l : loc) : M GeoDataFrame := λ s,
  match heap s !! l with
  | Some g => Done g s
  | None => Raised (NameError "<object>") s
  end.

Definition emit (e : effect) : M unit := λ s,
  Done tt {| heap := heap s; next := next s;
             globals := globals s; trace := trace s ++ [e] |}.

(** The frame a variable denotes in a state. *)
Definition frame_of (s : State) (x : string) : option GeoDataFrame :=
  l ← globals s !! x; heap s !! l.

(** ** The script *)

Definition block6_wards : list Z := [429; 430; 431; 432; 433; 434].

(** Lines 11-14: load the shapefile and print its schema.  [file] is the
    collection [gpd.read_file] returns. *)
Definition loader (file : GeoDataFrame) : M unit :=
  l ← alloc file;
  assign "gdf" l;;
  g ← var "gdf" ≫= deref;
  emit (Print (PColumns (columns g)));;
  g ← var "gdf" ≫= deref;
  emit (Print (PCRS (crs g))).

(** Lines 17-26. *)
Definition cleaner : M unit :=
  (* gdf_clean = gdf.copy() *)
  g ← var "gdf" ≫= deref;
  l ← alloc g;
  assign "gdf_clean" l;;
  (* gdf_clean["Ward_No"] = gdf_clean["Ward_No"].astype(int) *)
  l ← var "gdf_clean";
  g ← deref l;
  s ← lift (getitem g "Ward_No");
  zs ← lift (astype_int s);
  l ← var "gdf_clean";
  g ← deref l;
  store l (setitem g "Ward_No" (VInt <$> zs));;
  (* if "SUM_Final_" in gdf_clean.columns: ... else: ... *)
  g ← var "gdf_clean" ≫= deref;
  if has_column g "SUM_Final_" then
    g ← var "gdf_clean" ≫= deref;
    l ← alloc (rename g "SUM_Final_" "Population");
    assign "gdf_clean" l
  else
    l ← var "gdf_clean";
    g ← deref l;
    store l (setitem_scalar g "Population" VNone).

(** Lines 32-35. *)
Definition partitioner : M unit :=
  (* block6_gdf = gdf_clean[gdf_clean["Ward_No"].isin(block6_wards)].copy() *)
  g ← var "gdf_clean" ≫= deref;
  g' ← var "gdf_clean" ≫= deref;
  s ← lift (getitem g' "Ward_No");
  sel ← alloc (select g (isin block6_wards s));
  l ← deref sel ≫= alloc;
  assign "block6_gdf" l;;
  (* other_gdf = gdf_clean[~gdf_clean["Ward_No"].isin(block6_wards)].copy() *)
  g ← var "gdf_clean" ≫= deref;
  g' ← var "gdf_clean" ≫= deref;
  s ← lift (getitem g' "Ward_No");
  sel ← alloc (select g (negb <$> isin block6_wards s));
  l ← deref sel ≫= alloc;
  assign "other_gdf" l;;
  (* print("Block 6 wards present:", sorted(block6_gdf["Ward_No"].unique())) *)
  g ← var "block6_gdf" ≫= deref;
  s ← lift (getitem g "Ward_No");
  emit (Print (PWards (merge_sort Z.le (remove_dups (ints s))))).

(** Lines 38-41. *)
Definition needs_reprojection (g : GeoDataFrame) : bool :=
  match crs g with
  | None => true
  | Some c => bool_decide (to_epsg c ≠ Some 4326)
  end.

Definition reproject (x : string) : M unit :=
  g ← var x ≫= deref;
  g' ← lift (to_crs 4326 g);
  l ← alloc g';
  assign x l.

Definition projector : M unit :=
  g ← var "gdf_clean" ≫= deref;
  if needs_reprojection g then
    reproject "gdf_clean";;
    reproject "block6_gdf";;
    reproject "other_gdf"
  else mret tt.

(** Lines 44-49: the map, centred on the centroid of the union of the
    highlighted geometries. *)
Definition centre (g : GeoDataFrame) : exn + spec_float * spec_float :=
  match lat_lon (centroid (unary_union (geometries g))) with
  | Some c => inr c
  | None => inl CentreError
  end.

(** Lines 92-105: one label per highlighted record, at its centroid. *)
Definition marker (g : GeoDataFrame) (r : Row) : exn + child :=
  match geometry_of g r with
  | None => inl (MarkerError (label r))
  | Some x =>
      match lat_lon (centroid x), col_pos "Ward_No" (columns g) with
      | Some c, Some i => inr (Marker c (cell_at i r))
      | Some _, None => inl (KeyError "Ward_No")
      | None, _ => inl (MarkerError (label r))
      end
  end.

Fixpoint markers (g : GeoDataFrame) (rs : list Row) : exn + list child :=
  match rs with
  | [] => inr []
  | r :: rs' =>
      match marker g r with
      | inl e => inl e
      | inr c =>
          match markers g rs' with
          | inl e => inl e
          | inr cs => inr (c :: cs)
          end
      end
  end.

Definition map_path : string := "../block6_boundary_map.html".
Definition block6_geojson : string := "../block6_wards.geojson".
Definition block6_shp_dir : string := "../block6_shapefile".
Definition block6_shp : string := "../block6_shapefile/block6_wards.shp".

(** Lines 44-112. *)
Definition renderer : M unit :=
  b ← var "block6_gdf" ≫= deref;
  c ← lift (centre b);
  o ← var "other_gdf" ≫= deref;
  let layer1 := GeoJson "Other Wards" o ["Ward_No"] in
  b ← var "block6_gdf" ≫= deref;
  let layer2 := GeoJson "Block 6 (Wards 429–434)" b ["Ward_No"; "Population"] in
  b ← var "block6_gdf" ≫= deref;
  labels ← lift (markers b (rows b));
  let m := {| location := c; zoom_start := 14; tiles := "OpenStreetMap";
              children := [layer1; layer2] ++ labels ++ [LayerControl] |} in
  emit (SaveMap map_path m);;
  emit (Print (PSaved "Map" map_path)).

(** Lines 114-124. *)
Definition exporter : M unit :=
  b ← var "block6_gdf" ≫= deref;
  emit (ToFile block6_geojson b);;
  emit (Print (PSaved "Block 6 GeoJSON" block6_geojson));;
  emit (Mkdir block6_shp_dir);;
  b ← var "block6_gdf" ≫= deref;
  emit (ToFile block6_shp b);;
  emit (Print (PSaved "Block 6 Shapefile" block6_shp_dir)).

(** The whole run, from the empty state. *)
Definition script (file : GeoDataFrame) : M unit :=
  loader file;; cleaner;; partitioner;; projector;; renderer;; exporter.

Definition run (file : GeoDataFrame) : outcome unit := script file init.

(** ** What each stage computes *)

(** The frames the stages compute, as functions of the loaded collection. *)
Definition cast_ward (g : GeoDataFrame) : exn + GeoDataFrame :=
  match getitem g "Ward_No" with
  | inl e => inl e
  | inr s =>
      match astype_int s with
      | inl e => inl e
      | inr zs => inr (setitem g "Ward_No" (VInt <$> zs))
      end
  end.

Definition population (g : GeoDataFrame) : GeoDataFrame :=
  if has_column g "SUM_Final_" then rename g "SUM_Final_" "Population"
  else setitem_scalar g "Population" VNone.

Definition cleaned (file : GeoDataFrame) : exn + GeoDataFrame :=
  match cast_ward file with
  | inl e => inl e
  | inr g => inr (population g)
  end.

(** The membership test of lines 32-33 on one record of a frame. *)
Definition in_block6 (g : GeoDataFrame) (r : Row) : bool :=
  match col_pos "Ward_No" (columns g) with
  | Some i =>
      match cell_at i r with
      | VInt z => bool_decide (z ∈ block6_wards)
      | _ => false
      end
  | None => false
  end.

(** The ward identifier of a record, when it is an integer. *)
Definition ward_no (g : GeoDataFrame) (r : Row) : option Z :=
  i ← col_pos "Ward_No" (columns g);
  match cell_at i r with VInt z => Some z | _ => None end.

(** What holds of the three collections once the partitioner has run from a
    state: the partitioner completes, the three variables denote frames [c]
    (the cleaned collection), [b] (highlighted) and [o] (context), and these
    satisfy [P]. *)
Definition partitioned (s0 : State)
    (P : GeoDataFrame → GeoDataFrame → GeoDataFrame → Prop) : Prop :=
  ∃ s c b o,
    partitioner s0 = Done tt s
    ∧ frame_of s "gdf_clean" = Some c
    ∧ frame_of s "block6_gdf" = Some b
    ∧ frame_of s "other_gdf" = Some o
    ∧ P c b o.

(** Variables only refer to objects already allocated, so a new object never
    takes the place of one a variable denotes. *)
Definition inv_on (G : gmap string loc) (n : loc) : Prop :=
  ∀ x l, G !! x = Some l → (l < n)%nat.

Definition inv (s : State) : Prop := inv_on (globals s) (next s).

(** The files and directories a run has written, oldest first. *)
Definition outputs (t : list effect) : list effect := filter (λ e, is_output e) t.

(** The map of lines 47-107, from its centre, the two layers' collections
    and the labels. *)
Definition block6_map (c : spec_float * spec_float) (o b : GeoDataFrame)
    (labels : list child) : FoliumMap :=
  {| location := c; zoom_start := 14; tiles := "OpenStreetMap";
     children :=
       [GeoJson "Other Wards" o ["Ward_No"];
        GeoJson "Block 6 (Wards 429–434)" b ["Ward_No"; "Population"]]
       ++ labels ++ [LayerControl] |}.

(** What the renderer and the exporter add to the trace. *)
Definition rendered (m : FoliumMap) : list effect :=
  [SaveMap map_path m; Print (PSaved "Map" map_path)].

Definition exported (b : GeoDataFrame) : list effect :=
  [ToFile block6_geojson b;
   Print (PSaved "Block 6 GeoJSON" block6_geojson);
   Mkdir block6_shp_dir;
   ToFile block6_shp b;
   Print (PSaved "Block 6 Shapefile" block6_shp_dir)].

(** The identifiers line 35 prints for a highlighted collection. *)
Definition wards_present (b : GeoDataFrame) : list Z :=
  match getitem b "Ward_No" with
  | inr s => merge_sort Z.le (remove_dups (ints s))
  | inl _ => []
  end.

(** No two variables of the script denote the same object, and every object
    denoted has been allocated. *)
Definition fresh (G : gmap string loc) (n : loc) : Prop :=
  inv_on G n ∧ ∀ x y l, G !! x = Some l → G !! y = Some l → x = y.

Definition no_alias (s : State) : Prop := fresh (globals s) (next s).

(** The geometry cell of a column of cells. *)
Definition geom_cell (v : value) : option Geometry :=
  match v with VGeom x => Some x | _ => None end.

(** A state with more effects in its trace. *)
Definition add_trace (s : State) (t : list effect) : State :=
  {| heap := heap s; next := next s; globals := globals s;
     trace := trace s ++ t |}.

(** The three collections [c'], [b'] and [o'] that lines 38-41 leave for the
    renderer, from the three collections of the partition:
    the results of [to_crs] when the guard holds, the collections themselves
    when it does not. *)
Definition projected (c b o c' b' o' : GeoDataFrame) : Prop :=
  if needs_reprojection c then
    to_crs 4326 c = inr c' ∧ to_crs 4326 b = inr b' ∧ to_crs 4326 o = inr o'
  else c' = c ∧ b' = b ∧ o' = o.

(** The two collections of the partition, from the cleaned collection. *)
Definition highlighted (c : GeoDataFrame) : GeoDataFrame :=
  {| columns := columns c;
     rows := filter (λ r, in_block6 c r) (rows c); crs := crs c |}.

Definition context (c : GeoDataFrame) : GeoDataFrame :=
  {| columns := columns c;
     rows := filter (λ r, ¬ in_block6 c r) (rows c); crs := crs c |}.

(** A statement started in a state of [P] that completes, completes in a
    state of [Q]. *)
Definition hoare {A} (P : State → Prop) (m : M A) (Q : A → State → Prop) : Prop :=
  ∀ s a s', P s → m s = Done a s' → Q a s'.

(** The object [l] is the last one allocated and no variable denotes it yet. *)
Definition allocated (l : loc) (s : State) : Prop :=
  fresh (globals s) l ∧ next s = S l.

(** ** Proofs *)

Lemma frame_of_Some s x g :
  frame_of s x = Some g ↔ ∃ l, globals s !! x = Some l ∧ heap s !! l = Some g.
Proof.
  unfold frame_of. destruct (globals s !! x) as [l|]; simpl; split.
  - intros H. eauto.
  - intros (l' & [= <-] & H). done.
  - done.
  - intros (l' & [=] & _).
Qed.

Lemma inv_on_empty n : inv_on ∅ n.
Proof. intros x l. by rewrite lookup_empty. Qed.

Lemma inv_on_insert G n y l0 :
  inv_on G n → (l0 < n)%nat → inv_on (<[y := l0]> G) n.
Proof.
  intros HG Hl x l. destruct (decide (y = x)) as [->|Hne].
  - rewrite lookup_insert_eq. intros [= <-]. done.
  - rewrite lookup_insert_ne by done. apply HG.
Qed.

Lemma inv_on_mono G n n' : inv_on G n → (n ≤ n')%nat → inv_on G n'.
Proof. intros HG Hn x l Hx. specialize (HG x l Hx). lia. Qed.

Lemma inv_lookup_lt s x l : inv s → globals s !! x = Some l → (l < next s)%nat.
Proof. intros Hi Hx. exact (Hi _ _ Hx). Qed.

Ltac run_ops :=
  unfold mbind, M_bind, mret, M_ret, raise, lift, alloc, store, assign, var,
    deref, emit; simpl.

Ltac look :=
  repeat first
    [ rewrite lookup_insert_eq
    | rewrite lookup_insert_ne by (done || lia)
    | match goal with
      | H : ?m !! ?k = Some _ |- context [?m !! ?k] => rewrite H
      end
    | progress simpl ].

Ltac solve_inv :=
  unfold inv in *; simpl;
  repeat (apply inv_on_insert; [| lia]);
  first [ apply inv_on_empty | eapply inv_on_mono; [eassumption | lia] ].

Ltac solve_frame := unfold frame_of; look; try done.

Lemma loader_spec file :
  ∃ s, loader file init = Done tt s ∧ inv s ∧ frame_of s "gdf" = Some file
       ∧ trace s = [Print (PColumns (columns file)); Print (PCRS (crs file))].
Proof.
  eexists. split; [|split; [|split]].
  - unfold loader. run_ops. look. reflexivity.
  - solve_inv.
  - solve_frame.
  - reflexivity.
Qed.

Lemma cleaner_spec s file :
  inv s → frame_of s "gdf" = Some file →
  match cleaned file with
  | inl e => ∃ s', cleaner s = Raised e s' ∧ trace s' = trace s
  | inr c =>
      ∃ s', cleaner s = Done tt s' ∧ inv s' ∧ trace s' = trace s
            ∧ frame_of s' "gdf" = Some file
            ∧ frame_of s' "gdf_clean" = Some c
            ∧ globals s' !! "gdf" ≠ globals s' !! "gdf_clean"
  end.
Proof.
  intros Hi (l & Hl & Hg)%frame_of_Some.
  pose proof (inv_lookup_lt _ _ _ Hi Hl) as Hlt.
  unfold cleaned, cast_ward, cleaner. run_ops. look.
  destruct (getitem file "Ward_No") as [e|ws]; simpl; [eauto|].
  destruct (astype_int ws) as [e|zs]; simpl; [eauto|].
  look. unfold population.
  destruct (has_column _ "SUM_Final_"); look.
  - eexists. split; [reflexivity|]. split; [solve_inv|]. split; [done|].
    split; [solve_frame|]. split; [solve_frame|].
    look. intros [= ->]. lia.
  - eexists. split; [reflexivity|]. split; [solve_inv|]. split; [done|].
    split; [solve_frame|]. split; [solve_frame|].
    look. intros [= ->]. lia.
Qed.

(** *** The two selections are filters *)

Lemma select_rows_fmap (f : Row → bool) (rs : list Row) :
  select_rows rs (f <$> rs) = filter (λ r, f r) rs.
Proof.
  induction rs as [|r rs IH]; [done|]. csimpl. rewrite IH.
  destruct (f r) eqn:Hf.
  - rewrite filter_cons_True; [done | by rewrite Hf].
  - rewrite filter_cons_False; [done | rewrite Hf; exact id].
Qed.

Lemma select_block6 (c : GeoDataFrame) i :
  col_pos "Ward_No" (columns c) = Some i →
  select_rows (rows c) (isin block6_wards (cell_at i <$> rows c))
  = filter (λ r, in_block6 c r) (rows c).
Proof.
  intros Hi. unfold isin. rewrite <- list_fmap_compose, select_rows_fmap.
  apply list_filter_iff. intros r. unfold in_block6. rewrite Hi. simpl.
  by destruct (cell_at i r).
Qed.

Lemma select_other (c : GeoDataFrame) i :
  col_pos "Ward_No" (columns c) = Some i →
  select_rows (rows c) (negb <$> isin block6_wards (cell_at i <$> rows c))
  = filter (λ r, ¬ in_block6 c r) (rows c).
Proof.
  intros Hi. unfold isin. rewrite <- !list_fmap_compose, select_rows_fmap.
  apply list_filter_iff. intros r. unfold in_block6. rewrite Hi. simpl.
  destruct (cell_at i r); simpl; try (rewrite negb_True; done); naive_solver.
Qed.

Lemma partitioner_spec (s : State) (c : GeoDataFrame) :
  inv s → frame_of s "gdf_clean" = Some c →
  match col_pos "Ward_No" (columns c) with
  | None => ∃ s', partitioner s = Raised (KeyError "Ward_No") s' ∧ trace s' = trace s
  | Some i =>
      ∃ s' ps, partitioner s = Done tt s' ∧ inv s'
        ∧ trace s' = trace s ++ (Print <$> ps)
        ∧ frame_of s' "gdf" = frame_of s "gdf"
        ∧ frame_of s' "gdf_clean" = Some c
        ∧ frame_of s' "block6_gdf"
          = Some {| columns := columns c;
                    rows := filter (λ r, in_block6 c r) (rows c); crs := crs c |}
        ∧ frame_of s' "other_gdf"
          = Some {| columns := columns c;
                    rows := filter (λ r, ¬ in_block6 c r) (rows c); crs := crs c |}
  end.
Proof.
  intros Hi (l & Hl & Hg)%frame_of_Some.
  pose proof (inv_lookup_lt _ _ _ Hi Hl) as Hlt.
  unfold partitioner, getitem. run_ops. look.
  destruct (col_pos "Ward_No" (columns c)) as [i|] eqn:Hpos; simpl; [|eauto].
  repeat (look; rewrite ?Hpos; run_ops).
  eexists. eexists [_]. split; [reflexivity|]. split; [solve_inv|].
  split; [reflexivity|].
  split.
  { unfold frame_of; simpl. look.
    destruct (globals s !! "gdf") as [l0|] eqn:Hl0; [|done]. simpl.
    pose proof (inv_lookup_lt _ _ _ Hi Hl0). by look. }
  split; [solve_frame|].
  unfold select. rewrite (select_block6 _ _ Hpos), (select_other _ _ Hpos).
  split; solve_frame.
Qed.

Lemma bind_Done {A B} (m : M A) (k : A → M B) (s s' : State) a :
  m s = Done a s' → (m ≫= k) s = k a s'.
Proof. intros H. unfold mbind, M_bind. by rewrite H. Qed.

Lemma bind_Raised {A B} (m : M A) (k : A → M B) (s s' : State) e :
  m s = Raised e s' → (m ≫= k) s = Raised e s'.
Proof. intros H. unfold mbind, M_bind. by rewrite H. Qed.

Lemma reproject_spec (s : State) x l (g : GeoDataFrame) :
  globals s !! x = Some l → heap s !! l = Some g →
  reproject x s =
    match to_crs 4326 g with
    | inl e => Raised e s
    | inr g' =>
        Done tt {| heap := <[next s := g']> (heap s); next := S (next s);
                   globals := <[x := next s]> (globals s); trace := trace s |}
    end.
Proof.
  intros Hl Hg. unfold reproject. run_ops. look.
  by destruct (to_crs 4326 g).
Qed.

Lemma projector_spec (s : State) (c b o : GeoDataFrame) :
  inv s →
  frame_of s "gdf_clean" = Some c →
  frame_of s "block6_gdf" = Some b →
  frame_of s "other_gdf" = Some o →
  if needs_reprojection c then
    match to_crs 4326 c with
    | inl e => projector s = Raised e s
    | inr c' =>
        match to_crs 4326 b with
        | inl e => ∃ s', projector s = Raised e s' ∧ trace s' = trace s
        | inr b' =>
            match to_crs 4326 o with
            | inl e => ∃ s', projector s = Raised e s' ∧ trace s' = trace s
            | inr o' =>
                ∃ s', projector s = Done tt s' ∧ inv s' ∧ trace s' = trace s
                  ∧ frame_of s' "gdf" = frame_of s "gdf"
                  ∧ frame_of s' "gdf_clean" = Some c'
                  ∧ frame_of s' "block6_gdf" = Some b'
                  ∧ frame_of s' "other_gdf" = Some o'
            end
        end
    end
  else projector s = Done tt s.
Proof.
  intros Hi (lc & Hlc & Hc)%frame_of_Some (lb & Hlb & Hb)%frame_of_Some
    (lo & Hlo & Ho)%frame_of_Some.
  pose proof (inv_lookup_lt _ _ _ Hi Hlc).
  pose proof (inv_lookup_lt _ _ _ Hi Hlb).
  pose proof (inv_lookup_lt _ _ _ Hi Hlo).
  unfold projector.
  rewrite (bind_Done (var "gdf_clean" ≫= deref) _ s s c) by (run_ops; by look).
  destruct (needs_reprojection c); [|done].
  destruct (to_crs 4326 c) as [e|c'] eqn:Ec.
  { erewrite bind_Raised; [done|]. erewrite reproject_spec by done. by rewrite Ec. }
  erewrite bind_Done; [|erewrite reproject_spec by done; by rewrite Ec].
  destruct (to_crs 4326 b) as [e|b'] eqn:Eb.
  { eexists. split.
    - erewrite bind_Raised; [done|].
      erewrite reproject_spec; [by rewrite Eb|by look..].
    - done. }
  erewrite bind_Done; [|erewrite reproject_spec; [by rewrite Eb|by look..]].
  destruct (to_crs 4326 o) as [e|o'] eqn:Eo.
  { eexists. split.
    - erewrite reproject_spec; [by rewrite Eo|by look..].
    - done. }
  eexists. split; [erewrite reproject_spec; [by rewrite Eo|by look..]|].
  split; [solve_inv|]. split; [done|].
  split.
  { unfold frame_of; simpl. look.
    destruct (globals s !! "gdf") as [l0|] eqn:Hl0; [|done]. simpl.
    pose proof (inv_lookup_lt _ _ _ Hi Hl0). by look. }
  repeat split; solve_frame.
Qed.

(** The renderer stops at the map centre when there is none. *)
Lemma renderer_no_centre (s : State) (b : GeoDataFrame) e :
  frame_of s "block6_gdf" = Some b → centre b = inl e →
  renderer s = Raised e s.
Proof.
  intros (l & Hl & Hb)%frame_of_Some Hc. unfold renderer.
  rewrite (bind_Done (var "block6_gdf" ≫= deref) _ s s b) by (run_ops; by look).
  erewrite bind_Raised; [done|]. by rewrite Hc.
Qed.

(** *** Columns and cells *)

Lemma col_pos_cons name c cols :
  col_pos name (c :: cols)
  = if decide (c = name) then Some 0%nat else S <$> col_pos name cols.
Proof.
  unfold col_pos. simpl. case_decide; [done|].
  by destruct (list_find _ cols) as [[??]|].
Qed.

Lemma col_pos_Some name cols i :
  col_pos name cols = Some i → cols !! i = Some name.
Proof.
  unfold col_pos. destruct (list_find _ cols) as [[j x]|] eqn:E; [|done].
  simpl. intros [= ->]. apply list_find_Some in E as (? & -> & _). done.
Qed.

Lemma col_pos_None name cols : col_pos name cols = None ↔ name ∉ cols.
Proof.
  unfold col_pos. rewrite fmap_None, list_find_None, Forall_forall.
  split; [intros H Hin; by apply (H name)|intros H x Hx ->; done].
Qed.

Lemma col_pos_is_Some name cols : is_Some (col_pos name cols) ↔ name ∈ cols.
Proof.
  rewrite <- not_eq_None_Some, col_pos_None.
  destruct (decide (name ∈ cols)); naive_solver.
Qed.

Lemma col_pos_relabel name (f : string → string) cols :
  (∀ c, f c = name ↔ c = name) →
  col_pos name (f <$> cols) = col_pos name cols.
Proof.
  intros Hf. induction cols as [|c cols IH]; [done|].
  rewrite fmap_cons, !col_pos_cons, IH.
  destruct (decide (c = name)) as [Hc|Hc], (decide (f c = name)) as [Hfc|Hfc];
    try done.
  - destruct Hfc. by apply Hf.
  - destruct Hc. by apply Hf.
Qed.

Lemma col_pos_app_l name cols more i :
  col_pos name cols = Some i → col_pos name (cols ++ more) = Some i.
Proof.
  revert i. induction cols as [|c cols IH]; intros i; [done|].
  simpl. rewrite !col_pos_cons. case_decide; [done|].
  destruct (col_pos name cols) as [j|]; [|done].
  simpl. intros [= <-]. by rewrite (IH j).
Qed.

Lemma col_pos_app_new name cols :
  col_pos name cols = None → col_pos name (cols ++ [name]) = Some (length cols).
Proof.
  induction cols as [|c cols IH]; simpl.
  - intros _. rewrite col_pos_cons. by case_decide.
  - rewrite !col_pos_cons. case_decide; [done|].
    destruct (col_pos name cols); [done|]. intros _. by rewrite IH.
Qed.

Lemma col_pos_lt name cols i : col_pos name cols = Some i → (i < length cols)%nat.
Proof. intros H%col_pos_Some. by eapply lookup_lt_Some. Qed.

Lemma cell_at_set_cell_eq i (r : Row) v :
  (i < length (cells r))%nat → cell_at i (set_cell i r v) = v.
Proof. intros Hi. unfold cell_at, set_cell. simpl. by rewrite list_lookup_insert_eq. Qed.

Lemma cell_at_set_cell_ne i j (r : Row) v :
  i ≠ j → cell_at j (set_cell i r v) = cell_at j r.
Proof. intros Hne. unfold cell_at, set_cell. simpl. by rewrite list_lookup_insert_ne. Qed.

Lemma cell_at_add_none i (r : Row) : cell_at i (add_cell r VNone) = cell_at i r.
Proof.
  unfold cell_at, add_cell. simpl.
  destruct (decide (i < length (cells r))%nat) as [Hlt|Hge].
  - by rewrite lookup_app_l.
  - rewrite (lookup_ge_None_2 (cells r)) by lia. simpl.
    destruct (decide (i = length (cells r))) as [->|].
    + by rewrite list_lookup_middle.
    + rewrite lookup_ge_None_2; [done|]. rewrite length_app. simpl. lia.
Qed.

Lemma cell_at_add_new (r : Row) v :
  cell_at (length (cells r)) (add_cell r v) = v.
Proof. unfold cell_at, add_cell. simpl. by rewrite list_lookup_middle. Qed.

(** *** The cast *)

Lemma astype_int_from_inr pos s zs :
  astype_int_from pos s = inr zs ↔ Forall2 (λ v z, as_int v = Some z) s zs.
Proof.
  revert pos zs. induction s as [|v s IH]; intros pos zs; simpl.
  - split; [intros [= <-]; constructor|intros ->%Forall2_nil_inv_l; done].
  - destruct (as_int v) as [z|] eqn:Ev.
    + destruct (astype_int_from (S pos) s) as [e|zs'] eqn:Es.
      * split; [done|]. intros (z' & zs' & Hz & Hs & ->)%Forall2_cons_inv_l.
        apply (IH (S pos)) in Hs. congruence.
      * split.
        -- intros [= <-]. constructor; [done|]. by apply (IH (S pos)).
        -- intros (z' & zs'' & Hz & Hs & ->)%Forall2_cons_inv_l.
           apply (IH (S pos)) in Hs. congruence.
    + split; [done|]. intros (z' & zs' & Hz & _)%Forall2_cons_inv_l. congruence.
Qed.

Lemma astype_int_from_inl pos s e :
  astype_int_from pos s = inl e →
  ∃ k v, e = CastError (pos + k) ∧ s !! k = Some v ∧ as_int v = None.
Proof.
  revert pos. induction s as [|v s IH]; intros pos; simpl; [done|].
  destruct (as_int v) as [z|] eqn:Ev.
  - destruct (astype_int_from (S pos) s) as [e'|zs'] eqn:Es; [|done].
    intros [= <-]. destruct (IH _ Es) as (k & v' & -> & Hk & Hv).
    exists (S k), v'. split; [f_equal; lia|done].
  - intros [= <-]. exists 0%nat, v. split; [f_equal; lia|done].
Qed.


(** *** Column assignment *)

Lemma zip_with_labels (f : Row → value → Row) (rs : list Row) (s : list value) :
  (∀ r v, label (f r v) = label r) → length s = length rs →
  label <$> zip_with f rs s = label <$> rs.
Proof.
  intros Hf. revert s. induction rs as [|r rs IH]; intros [|v s]; csimpl; try done.
  intros [= Hlen]. by rewrite Hf, IH.
Qed.

Lemma setitem_labels (g : GeoDataFrame) name s :
  length s = length (rows g) →
  label <$> rows (setitem g name s) = label <$> rows g.
Proof.
  intros Hlen. unfold setitem.
  destruct (col_pos name (columns g)); csimpl; by apply zip_with_labels.
Qed.

Lemma setitem_length (g : GeoDataFrame) name s :
  length s = length (rows g) →
  length (rows (setitem g name s)) = length (rows g).
Proof. intros H. by rewrite <- (length_fmap label), setitem_labels, length_fmap. Qed.

Lemma setitem_crs (g : GeoDataFrame) name s : crs (setitem g name s) = crs g.
Proof. unfold setitem. by destruct (col_pos name (columns g)). Qed.

Lemma setitem_old_columns (g : GeoDataFrame) name s i :
  col_pos name (columns g) = Some i → columns (setitem g name s) = columns g.
Proof. intros H. unfold setitem. by rewrite H. Qed.

(** Reading back the column just assigned. *)
Lemma setitem_old_read (g : GeoDataFrame) name s i :
  wf_frame g → length s = length (rows g) →
  col_pos name (columns g) = Some i →
  cell_at i <$> rows (setitem g name s) = s.
Proof.
  intros Hwf Hlen Hi. unfold setitem. rewrite Hi. csimpl.
  apply col_pos_lt in Hi. unfold wf_frame in Hwf.
  revert s Hlen. induction Hwf as [|r rs Hr Hrs IH]; intros [|v s]; csimpl; try done.
  intros [= Hlen]. rewrite IH by done.
  by rewrite cell_at_set_cell_eq by lia.
Qed.

Lemma setitem_new_read (g : GeoDataFrame) name s :
  wf_frame g → length s = length (rows g) →
  col_pos name (columns g) = None →
  cell_at (length (columns g)) <$> rows (setitem g name s) = s.
Proof.
  intros Hwf Hlen Hi. unfold setitem. rewrite Hi. csimpl.
  unfold wf_frame in Hwf.
  revert s Hlen. induction Hwf as [|r rs Hr Hrs IH]; intros [|v s]; csimpl; try done.
  intros [= Hlen]. rewrite IH by done.
  by rewrite <- Hr, cell_at_add_new.
Qed.

(** Other columns are left alone by an assignment to an existing column. *)
Lemma setitem_old_other (g : GeoDataFrame) name s i j :
  length s = length (rows g) →
  col_pos name (columns g) = Some i → i ≠ j →
  cell_at j <$> rows (setitem g name s) = cell_at j <$> rows g.
Proof.
  intros Hlen Hi Hne. unfold setitem. rewrite Hi. csimpl.
  revert s Hlen. induction (rows g) as [|r rs IH]; intros [|v s]; csimpl; try done.
  intros [= Hlen]. rewrite IH by done.
  by rewrite cell_at_set_cell_ne.
Qed.

Lemma setitem_wf (g : GeoDataFrame) name s :
  wf_frame g → wf_frame (setitem g name s).
Proof.
  unfold wf_frame, setitem. intros Hwf.
  destruct (col_pos name (columns g)); simpl.
  - revert s. induction Hwf as [|r rs Hr Hrs IH]; intros [|v s]; simpl;
      try constructor; [|by apply IH].
    simpl. by rewrite length_insert.
  - revert s. induction Hwf as [|r rs Hr Hrs IH]; intros [|v s]; simpl;
      try constructor; [|by apply IH].
    simpl. rewrite !length_app. simpl. lia.
Qed.

Lemma setitem_read (g : GeoDataFrame) name s :
  wf_frame g → length s = length (rows g) →
  getitem (setitem g name s) name = inr s.
Proof.
  intros Hwf Hlen. unfold getitem.
  destruct (col_pos name (columns g)) as [i|] eqn:Hi.
  - rewrite (setitem_old_columns _ _ _ _ Hi), Hi.
    by rewrite (setitem_old_read _ _ _ _ Hwf Hlen Hi).
  - rewrite <- (setitem_new_read _ _ _ Hwf Hlen Hi) at 2.
    unfold setitem at 1. rewrite Hi. simpl. by rewrite (col_pos_app_new _ _ Hi).
Qed.

Lemma zip_with_add_none (rs : list Row) i :
  cell_at i <$> zip_with add_cell rs (replicate (length rs) VNone)
  = cell_at i <$> rs.
Proof. induction rs as [|r rs IH]; csimpl; [done|]. by rewrite cell_at_add_none, IH. Qed.

(** *** The cleaned frame *)

Lemma cast_ward_inr (file g1 : GeoDataFrame) :
  cast_ward file = inr g1 ↔
  ∃ i zs, col_pos "Ward_No" (columns file) = Some i
    ∧ Forall2 (λ v z, as_int v = Some z) (cell_at i <$> rows file) zs
    ∧ g1 = setitem file "Ward_No" (VInt <$> zs).
Proof.
  unfold cast_ward, getitem, astype_int.
  destruct (col_pos "Ward_No" (columns file)) as [i|];
    [|split; [done | by intros (? & ? & [=] & _)]].
  destruct (astype_int_from 0 (cell_at i <$> rows file)) as [e|zs] eqn:E.
  - split; [done|]. intros (? & zs & [= <-] & Hzs%(astype_int_from_inr 0) & _).
    congruence.
  - apply astype_int_from_inr in E. split.
    + intros [= <-]. eauto.
    + intros (? & zs' & [= <-] & Hzs & ->).
      assert (zs' = zs) as ->; [|done].
      clear -E Hzs. revert zs' Hzs.
      induction E as [|v z vs zs Hv Hvs IH]; intros zs' Hzs.
      * by apply Forall2_nil_inv_l in Hzs.
      * apply Forall2_cons_inv_l in Hzs as (z' & zs'' & Hz' & Hs & ->).
        f_equal; [congruence|by apply IH].
Qed.

Section Cleaned.

Context (file c : GeoDataFrame) (i : nat) (zs : list Z).
Hypothesis Hpos : col_pos "Ward_No" (columns file) = Some i.
Hypothesis Hcast : Forall2 (λ v z, as_int v = Some z) (cell_at i <$> rows file) zs.
Hypothesis Hc : c = population (setitem file "Ward_No" (VInt <$> zs)).

Local Lemma zs_length : length (VInt <$> zs : list value) = length (rows file).
Proof. apply Forall2_length in Hcast. rewrite !length_fmap in *. done. Qed.

Lemma cleaned_crs : crs c = crs file.
Proof.
  rewrite Hc. unfold population, setitem_scalar, rename.
  destruct (has_column _ _); simpl; by rewrite !setitem_crs.
Qed.

Lemma cleaned_labels : label <$> rows c = label <$> rows file.
Proof.
  pose proof zs_length as Hlen. rewrite Hc. unfold population, setitem_scalar, rename.
  destruct (has_column _ _); csimpl.
  - by apply setitem_labels.
  - rewrite setitem_labels; [by apply setitem_labels|]. by rewrite length_replicate.
Qed.

Lemma cleaned_length : length (rows c) = length (rows file).
Proof. by rewrite <- (length_fmap label), cleaned_labels, length_fmap. Qed.

Lemma cleaned_ward_pos : col_pos "Ward_No" (columns c) = Some i.
Proof.
  rewrite Hc. unfold population, setitem_scalar, rename.
  rewrite (setitem_old_columns _ _ _ _ Hpos).
  destruct (has_column _ _); csimpl.
  - rewrite col_pos_relabel; [done|].
    intros n. case_decide; naive_solver.
  - unfold setitem at 1. rewrite (setitem_old_columns _ _ _ _ Hpos).
    destruct (col_pos "Population" (columns file)); simpl; [done|].
    by apply col_pos_app_l.
Qed.

(** The identifier column of the cleaned frame is the cast one. *)
Lemma cleaned_wards :
  wf_frame file → cell_at i <$> rows c = VInt <$> zs.
Proof.
  intros Hwf. pose proof zs_length as Hlen.
  set (g1 := setitem file "Ward_No" (VInt <$> zs)).
  assert (cell_at i <$> rows g1 = VInt <$> zs) as Hg1
    by (by apply setitem_old_read).
  assert (columns g1 = columns file) as Hcols by (by eapply setitem_old_columns).
  rewrite <- Hg1, Hc. fold g1. unfold population, setitem_scalar.
  destruct (has_column g1 _); [done|].
  destruct (col_pos "Population" (columns g1)) as [j|] eqn:Hj.
  - eapply setitem_old_other; [by rewrite length_replicate | exact Hj |].
    intros ->. rewrite Hcols in Hj. apply col_pos_Some in Hj, Hpos. congruence.
  - unfold setitem. rewrite Hj. csimpl. apply zip_with_add_none.
Qed.

Lemma cleaned_wf : wf_frame file → wf_frame c.
Proof.
  intros Hwf. rewrite Hc. unfold population, setitem_scalar.
  destruct (has_column _ _).
  - pose proof (setitem_wf file "Ward_No" (VInt <$> zs) Hwf) as H.
    unfold wf_frame, rename in *. simpl. by rewrite length_fmap.
  - by do 2 apply setitem_wf.
Qed.

End Cleaned.

(** *** Running the stages from the empty state *)

Lemma bind_Done_inv {A B} (m : M A) (k : A → M B) (s s2 : State) b :
  (m ≫= k) s = Done b s2 → ∃ a s1, m s = Done a s1 ∧ k a s1 = Done b s2.
Proof. unfold mbind, M_bind. destruct (m s) as [a s1|e s1]; [eauto|done]. Qed.

Lemma bind_Raised_inv {A B} (m : M A) (k : A → M B) (s s2 : State) e :
  (m ≫= k) s = Raised e s2 →
  m s = Raised e s2 ∨ ∃ a s1, m s = Done a s1 ∧ k a s1 = Raised e s2.
Proof.
  unfold mbind, M_bind. destruct (m s) as [a s1|e' s1]; [by eauto|].
  intros [= -> ->]. by left.
Qed.

Lemma cleaned_inr (file c : GeoDataFrame) :
  cleaned file = inr c ↔
  ∃ i zs, col_pos "Ward_No" (columns file) = Some i
    ∧ Forall2 (λ v z, as_int v = Some z) (cell_at i <$> rows file) zs
    ∧ c = population (setitem file "Ward_No" (VInt <$> zs)).
Proof.
  unfold cleaned. destruct (cast_ward file) as [e|g1] eqn:E.
  - split; [done|]. intros (i & zs & Hi & Hzs & _).
    assert (cast_ward file = inr (setitem file "Ward_No" (VInt <$> zs))) as E'
      by (apply cast_ward_inr; eauto).
    congruence.
  - apply cast_ward_inr in E as (i & zs & Hi & Hzs & ->). split.
    + intros [= <-]. eauto.
    + intros (i' & zs' & Hi' & Hzs' & ->).
      assert (cast_ward file = inr (setitem file "Ward_No" (VInt <$> zs'))) as E1
        by (apply cast_ward_inr; eauto).
      assert (cast_ward file = inr (setitem file "Ward_No" (VInt <$> zs))) as E2
        by (apply cast_ward_inr; eauto).
      congruence.
Qed.

(** The run up to the end of the clean-up, read off the frame it computes. *)
Lemma clean_run (file : GeoDataFrame) :
  match cleaned file with
  | inl e => ∃ s, (loader file;; cleaner) init = Raised e s
                  ∧ script file init = Raised e s
                  ∧ Forall (λ ev, is_output ev = false) (trace s)
  | inr c =>
      ∃ s, (loader file;; cleaner) init = Done tt s ∧ inv s
           ∧ Forall (λ ev, is_output ev = false) (trace s)
           ∧ frame_of s "gdf" = Some file
           ∧ frame_of s "gdf_clean" = Some c
           ∧ globals s !! "gdf" ≠ globals s !! "gdf_clean"
  end.
Proof.
  destruct (loader_spec file) as (s0 & Hload & Hinv & Hgdf & Htr).
  pose proof (cleaner_spec s0 file Hinv Hgdf) as Hclean.
  destruct (cleaned file) as [e|c].
  - destruct Hclean as (s & Hs & Htr'). exists s.
    split; [by erewrite bind_Done|].
    split; [unfold script; erewrite bind_Done by done; by erewrite bind_Raised|].
    rewrite Htr', Htr. by repeat constructor.
  - destruct Hclean as (s & Hs & Hinv' & Htr' & Hg & Hc & Hne). exists s.
    split; [by erewrite bind_Done|]. split; [done|].
    split; [rewrite Htr', Htr; by repeat constructor|done].
Qed.

Lemma clean_run_Done (file : GeoDataFrame) (s : State) :
  (loader file;; cleaner) init = Done tt s →
  ∃ c, cleaned file = inr c ∧ inv s
       ∧ Forall (λ ev, is_output ev = false) (trace s)
       ∧ frame_of s "gdf" = Some file
       ∧ frame_of s "gdf_clean" = Some c
       ∧ globals s !! "gdf" ≠ globals s !! "gdf_clean".
Proof.
  intros Hrun. pose proof (clean_run file) as H.
  destruct (cleaned file) as [e|c].
  - destruct H as (s' & Hs' & _). congruence.
  - destruct H as (s' & Hs' & H). exists c. split; [done|].
    assert (s' = s) as -> by congruence. done.
Qed.

(** The run up to the end of the partition. *)
Lemma partition_run (file : GeoDataFrame) (s0 : State) :
  (loader file;; cleaner) init = Done tt s0 →
  ∃ c s,
    cleaned file = inr c
    ∧ partitioner s0 = Done tt s
    ∧ (loader file;; cleaner;; partitioner) init = Done tt s
    ∧ script file init = (projector;; renderer;; exporter) s
    ∧ inv s
    ∧ Forall (λ ev, is_output ev = false) (trace s)
    ∧ frame_of s "gdf" = Some file
    ∧ frame_of s "gdf_clean" = Some c
    ∧ frame_of s "block6_gdf"
      = Some {| columns := columns c;
                rows := filter (λ r, in_block6 c r) (rows c); crs := crs c |}
    ∧ frame_of s "other_gdf"
      = Some {| columns := columns c;
                rows := filter (λ r, ¬ in_block6 c r) (rows c); crs := crs c |}.
Proof.
  intros Hrun.
  destruct (clean_run_Done _ _ Hrun) as (c & Hc & Hinv & Htr & Hgdf & Hclean & _).
  pose proof Hc as (i & zs & Hi & Hzs & Hc')%cleaned_inr.
  pose proof (cleaned_ward_pos _ _ _ _ Hi Hc') as Hpos.
  pose proof (partitioner_spec s0 c Hinv Hclean) as Hpart. rewrite Hpos in Hpart.
  destruct Hpart as (s & ps & Hs & Hinv' & Htr' & Hgdf' & Hclean' & Hb & Ho).
  apply bind_Done_inv in Hrun as ([] & sl & Hload & Hcl).
  exists c, s. split; [done|]. split; [done|].
  split; [by erewrite bind_Done, bind_Done|].
  split; [unfold script; by erewrite bind_Done, bind_Done, bind_Done|].
  split; [done|].
  split.
  { rewrite Htr'. apply Forall_app; split; [done|].
    apply Forall_fmap, Forall_true. done. }
  split; [congruence|done].
Qed.

Lemma partitioned_intro (file : GeoDataFrame) (s0 : State)
    (P : GeoDataFrame → GeoDataFrame → GeoDataFrame → Prop) :
  (loader file;; cleaner) init = Done tt s0 →
  (∀ c, cleaned file = inr c →
     P c {| columns := columns c;
            rows := filter (λ r, in_block6 c r) (rows c); crs := crs c |}
         {| columns := columns c;
            rows := filter (λ r, ¬ in_block6 c r) (rows c); crs := crs c |}) →
  partitioned s0 P.
Proof.
  intros Hrun HP.
  destruct (partition_run _ _ Hrun)
    as (c & s & Hc & Hp & _ & _ & _ & _ & _ & Hclean & Hb & Ho).
  exists s, c. do 2 eexists. repeat (split; [done|]). by apply HP.
Qed.

(** *** The population column *)

Lemma relabel_not_old (cols : list string) :
  "SUM_Final_"
  ∉ (λ c, if decide (c = "SUM_Final_") then "Population" else c) <$> cols.
Proof.
  intros (n & Hn & _)%list_elem_of_fmap. simpl in Hn.
  case_decide; [done|]. congruence.
Qed.

Lemma setitem_scalar_columns (g : GeoDataFrame) name v :
  columns (setitem_scalar g name v)
  = if decide (name ∈ columns g) then columns g else columns g ++ [name].
Proof.
  unfold setitem_scalar, setitem.
  destruct (col_pos name (columns g)) as [i|] eqn:Hi; simpl.
  - rewrite decide_True; [done|]. apply col_pos_is_Some. eauto.
  - rewrite decide_False; [done|]. by apply col_pos_None.
Qed.

Lemma population_columns (g : GeoDataFrame) :
  "Population" ∈ columns (population g) ∧ "SUM_Final_" ∉ columns (population g).
Proof.
  unfold population, has_column. case_bool_decide as Hsum.
  - split; [|apply relabel_not_old].
    apply list_elem_of_fmap. exists "SUM_Final_". done.
  - rewrite setitem_scalar_columns. case_decide.
    + done.
    + split; [apply elem_of_app; right; by apply list_elem_of_singleton|].
      intros [?|?%list_elem_of_singleton]%elem_of_app; done.
Qed.

Lemma population_null (g : GeoDataFrame) :
  wf_frame g → has_column g "SUM_Final_" = false →
  getitem (population g) "Population" = inr (replicate (length (rows g)) VNone).
Proof.
  intros Hwf Hsum. unfold population. rewrite Hsum.
  apply setitem_read; [done|]. by rewrite length_replicate.
Qed.

(** ** The partition *)




(** ** The clean-up *)

Lemma getitem_inr (g : GeoDataFrame) name ws :
  getitem g name = inr ws ↔
  ∃ i, col_pos name (columns g) = Some i ∧ ws = cell_at i <$> rows g.
Proof.
  unfold getitem. destruct (col_pos name (columns g)) as [i|]; split.
  - intros [= <-]. eauto.
  - by intros (? & [= <-] & ->).
  - done.
  - by intros (? & [=] & _).
Qed.

Lemma cast_ok_run (file : GeoDataFrame) ws zs :
  getitem file "Ward_No" = inr ws → astype_int ws = inr zs →
  ∃ i s, col_pos "Ward_No" (columns file) = Some i
    ∧ ws = cell_at i <$> rows file
    ∧ Forall2 (λ v z, as_int v = Some z) ws zs
    ∧ (loader file;; cleaner) init = Done tt s
    ∧ frame_of s "gdf" = Some file
    ∧ frame_of s "gdf_clean"
      = Some (population (setitem file "Ward_No" (VInt <$> zs)))
    ∧ globals s !! "gdf" ≠ globals s !! "gdf_clean".
Proof.
  intros (i & Hi & ->)%getitem_inr Hzs%astype_int_from_inr.
  assert (cleaned file = inr (population (setitem file "Ward_No" (VInt <$> zs))))
    as Hc by (apply cleaned_inr; eauto).
  pose proof (clean_run file) as H. rewrite Hc in H.
  destruct H as (s & Hs & _ & _ & Hg & Hcl & Hne). by exists i, s.
Qed.

(** C6: with the identifier column cast, the clean-up completes whether or
    not the loaded collection has a column "SUM_Final_".  When it has one,
    every column so labelled is relabelled "Population", the other labels and
    the cells of the column as loaded, and no column "SUM_Final_" is left;
    when it has none, "Population" is a column of the cleaned collection whose
    cell is null for every record. *)
Theorem population_renamed_or_null (file : GeoDataFrame) ws zs :
  wf_frame file →
  getitem file "Ward_No" = inr ws → astype_int ws = inr zs →
  ∃ s c,
    (loader file;; cleaner) init = Done tt s
    ∧ frame_of s "gdf_clean" = Some c
    ∧ "Population" ∈ columns c
    ∧ ("SUM_Final_" ∉ columns c)
    ∧ length (rows c) = length (rows file)
    ∧ ("SUM_Final_" ∈ columns file →
        columns c
        = (λ n, if decide (n = "SUM_Final_") then "Population" else n)
            <$> columns file
        ∧ ∀ j, columns file !! j = Some "SUM_Final_" →
            columns c !! j = Some "Population"
            ∧ cell_at j <$> rows c = cell_at j <$> rows file)
    ∧ ("SUM_Final_" ∉ columns file →
        getitem c "Population" = inr (replicate (length (rows file)) VNone)).
Proof.
  intros Hwf Hws Hzs.
  destruct (cast_ok_run _ _ _ Hws Hzs) as (i & s & Hi & -> & Hall & Hrun & _ & Hc & _).
  exists s. eexists. split; [done|]. split; [done|].
  assert (length (VInt <$> zs : list value) = length (rows file)) as Hlen.
  { apply Forall2_length in Hall. by rewrite !length_fmap in *. }
  set (g1 := setitem file "Ward_No" (VInt <$> zs)).
  assert (columns g1 = columns file) as Hcols by (by eapply setitem_old_columns).
  assert (has_column g1 "SUM_Final_" = has_column file "SUM_Final_") as Hhas
    by (unfold has_column; by rewrite Hcols).
  assert (length (rows g1) = length (rows file)) as Hrows
    by (by apply setitem_length).
  split; [apply population_columns|]. split; [apply population_columns|].
  unfold has_column in Hhas.
  destruct (decide ("SUM_Final_" ∈ columns file)) as [Hin|Hnin].
  - rewrite (bool_decide_eq_true_2 _ Hin) in Hhas.
    unfold population, has_column. rewrite Hhas. unfold rename; simpl.
    rewrite Hcols. split; [done|]. split; [|done]. intros _. split; [done|].
    intros j Hj. split.
    + rewrite list_lookup_fmap, Hj. done.
    + eapply setitem_old_other; [done..|].
      intros ->. apply col_pos_Some in Hi. congruence.
  - rewrite (bool_decide_eq_false_2 _ Hnin) in Hhas.
    split.
    { unfold population, has_column. rewrite Hhas. unfold setitem_scalar.
      rewrite setitem_length; [done|]. by rewrite length_replicate. }
    split; [done|]. intros _.
    rewrite population_null; [|by apply setitem_wf|by unfold has_column].
    by rewrite Hrows.
Qed.



(** C9, as the code has it: the clean-up works on a copy.  After it the
    variable [gdf] still denotes the collection as loaded, untouched, and
    [gdf_clean] denotes another object, which is the one that carries the
    integer identifiers and the column "Population" in place of
    "SUM_Final_". *)
Theorem cleanup_works_on_a_copy (file : GeoDataFrame) (s : State) :
  wf_frame file →
  (loader file;; cleaner) init = Done tt s →
  frame_of s "gdf" = Some file
  ∧ ∃ c zs,
      frame_of s "gdf_clean" = Some c
      ∧ globals s !! "gdf" ≠ globals s !! "gdf_clean"
      ∧ getitem c "Ward_No" = inr (VInt <$> zs)
      ∧ "Population" ∈ columns c
      ∧ "SUM_Final_" ∉ columns c.
Proof.
  intros Hwf Hrun.
  destruct (clean_run_Done _ _ Hrun) as (c & Hc & _ & _ & Hgdf & Hclean & Hne).
  split; [done|].
  apply cleaned_inr in Hc as (i & zs & Hi & Hzs & Hc).
  exists c, zs. split; [done|]. split; [done|]. split.
  - apply getitem_inr. exists i. split.
    + by eapply cleaned_ward_pos.
    + symmetry. by eapply cleaned_wards.
  - rewrite Hc. apply population_columns.
Qed.

(** ** Wards 1 to 600 *)

Lemma in_block6_ward (c : GeoDataFrame) (r : Row) :
  in_block6 c r ↔ ∃ z, ward_no c r = Some z ∧ z ∈ block6_wards.
Proof.
  unfold in_block6, ward_no.
  destruct (col_pos "Ward_No" (columns c)) as [i|]; simpl;
    [|split; [done | by intros (? & [=] & _)]].
  destruct (cell_at i r) as [z| | | |];
    try (split; [done | by intros (? & [=] & _)]).
  rewrite bool_decide_spec. split; [eauto|]. by intros (? & [= <-] & ?).
Qed.

(** The identifiers of the two subsets, read off the identifier column. *)
Lemma subsets_by_ids (c : GeoDataFrame) i (rs : list Row) (ids : list Z) :
  col_pos "Ward_No" (columns c) = Some i →
  cell_at i <$> rs = VInt <$> ids →
  ints (cell_at i <$> filter (λ r, in_block6 c r) rs)
  = filter (λ z, z ∈ block6_wards) ids
  ∧ length (filter (λ r, ¬ in_block6 c r) rs)
    = length (filter (λ z, z ∉ block6_wards) ids).
Proof.
  intros Hi. revert ids.
  induction rs as [|r rs IH]; intros [|z ids]; csimpl; try done.
  intros [= Hr Hrs]. destruct (IH _ Hrs) as [IH1 IH2].
  assert (in_block6 c r ↔ z ∈ block6_wards) as Hin.
  { unfold in_block6. rewrite Hi, Hr. apply bool_decide_spec. }
  destruct (decide (z ∈ block6_wards)) as [Hz|Hz].
  - rewrite !filter_cons_True by (done || by apply Hin). csimpl.
    rewrite Hr. rewrite !filter_cons_False by (intros Hn; apply Hn; tauto).
    by rewrite <- IH1.
  - rewrite !filter_cons_False by (done || by rewrite Hin).
    rewrite !filter_cons_True by (done || by rewrite Hin). simpl.
    by rewrite IH2.
Qed.

Lemma four_present a1 a2 :
  a1 ∈ block6_wards → a2 ∈ block6_wards → a1 ≠ a2 →
  filter (λ z, z ∈ block6_wards) (filter (λ z, z ≠ a1 ∧ z ≠ a2) (seqZ 1 600))
  = filter (λ z, z ≠ a1 ∧ z ≠ a2) block6_wards
  ∧ length (filter (λ z, z ≠ a1 ∧ z ≠ a2) block6_wards) = 4%nat
  ∧ length (filter (λ z, z ∉ block6_wards)
              (filter (λ z, z ≠ a1 ∧ z ≠ a2) (seqZ 1 600))) = 594%nat
  ∧ length (filter (λ z, z ≠ a1 ∧ z ≠ a2) (seqZ 1 600)) = 598%nat.
Proof.
  unfold block6_wards at 1 2. rewrite !elem_of_cons, !elem_of_nil.
  intros H1 H2 Hne.
  destruct H1 as [->|[->|[->|[->|[->|[->|[]]]]]]];
    destruct H2 as [->|[->|[->|[->|[->|[->|[]]]]]]];
    first [ by destruct Hne | vm_compute; repeat split; reflexivity ].
Qed.

(** C3, as the code has it: when the identifiers of the collection are 1 to
    600 without two of 429 to 434 (so 598 records), the partitioner puts the
    four records whose identifiers are the four present ones in the
    highlighted subset, and the remaining 594 records in the context
    subset. *)
Theorem four_of_six_present (file : GeoDataFrame) ws ids a1 a2 :
  wf_frame file →
  getitem file "Ward_No" = inr ws →
  Forall2 (λ v z, as_int v = Some z) ws ids →
  ids ≡ₚ filter (λ z, z ≠ a1 ∧ z ≠ a2) (seqZ 1 600) →
  a1 ∈ block6_wards → a2 ∈ block6_wards → a1 ≠ a2 →
  ∃ s0,
    (loader file;; cleaner) init = Done tt s0
    ∧ partitioned s0 (λ c b o,
        length (rows c) = 598%nat
        ∧ length (rows b) = 4%nat
        ∧ length (rows o) = 594%nat
        ∧ (∃ wb, getitem b "Ward_No" = inr wb
             ∧ ints wb ≡ₚ filter (λ z, z ≠ a1 ∧ z ≠ a2) block6_wards)
        ∧ (∀ r, r ∈ rows b ↔
             r ∈ rows c ∧ ∃ z, ward_no c r = Some z ∧ z ∈ block6_wards)
        ∧ (∀ r, r ∈ rows o ↔ r ∈ rows c ∧ r ∉ rows b)).
Proof.
  intros Hwf Hws Hall Hperm Ha1 Ha2 Hne.
  assert (astype_int ws = inr ids) as Hzs by (by apply astype_int_from_inr).
  destruct (cast_ok_run _ _ _ Hws Hzs) as (i & s0 & Hi & -> & _ & Hrun & _).
  exists s0. split; [done|].
  apply (partitioned_intro file); [done|]. intros c Hc.
  apply cleaned_inr in Hc as (i' & zs & Hi' & Hzs' & Hc).
  assert (i' = i) as -> by congruence.
  assert (zs = ids) as ->.
  { apply astype_int_from_inr with (pos := 0%nat) in Hzs'.
    unfold astype_int in Hzs. congruence. }
  pose proof (cleaned_ward_pos _ _ _ _ Hi Hc) as Hpos.
  pose proof (cleaned_wards _ _ _ _ Hi Hall Hc Hwf) as Hwards.
  pose proof (cleaned_length _ _ _ _ Hall Hc) as Hlen.
  destruct (subsets_by_ids c i (rows c) ids Hpos Hwards) as [Hb Ho].
  destruct (four_present a1 a2 Ha1 Ha2 Hne) as (H4 & Hl4 & Hl594 & Hl598).
  assert (ints (cell_at i <$> filter (λ r, in_block6 c r) (rows c))
          ≡ₚ filter (λ z, z ≠ a1 ∧ z ≠ a2) block6_wards) as Hids.
  { rewrite Hb, Hperm, H4. done. }
  simpl. split; [|split; [|split; [|split; [|split]]]].
  - rewrite Hlen. apply Forall2_length in Hall. rewrite length_fmap in Hall.
    rewrite Hall, Hperm. done.
  - apply Permutation_length in Hids. rewrite Hl4 in Hids. rewrite <- Hids.
    rewrite Hb. clear -Hpos Hwards.
    destruct (subsets_by_ids c i (rows c) ids Hpos Hwards) as [Hb' _].
    rewrite <- Hb'. clear Hb'. revert Hwards. generalize ids.
    induction (rows c) as [|r rs IH]; intros [|z zs']; csimpl; try done.
    intros [= Hr Hrs].
    destruct (decide (in_block6 c r)) as [Hin|Hin].
    + rewrite filter_cons_True by done. csimpl. rewrite Hr. simpl.
      f_equal. by eapply IH.
    + rewrite filter_cons_False by done. by eapply IH.
  - rewrite Ho, Hperm. done.
  - unfold getitem. simpl. rewrite Hpos. eauto.
  - intros r. rewrite list_elem_of_filter, in_block6_ward. tauto.
  - intros r. rewrite !list_elem_of_filter.
    destruct (decide (in_block6 c r)); tauto.
Qed.

(** ** The projector *)

Lemma outputs_none (t : list effect) :
  Forall (λ ev, is_output ev = false) t → outputs t = [].
Proof.
  unfold outputs. induction 1 as [|e t He _ IH]; [done|].
  rewrite filter_cons_False; [done|]. rewrite He. exact id.
Qed.

Lemma partition_run_inv (file : GeoDataFrame) (s : State) :
  (loader file;; cleaner;; partitioner) init = Done tt s →
  ∃ c b o,
    cleaned file = inr c
    ∧ script file init = (projector;; renderer;; exporter) s
    ∧ inv s
    ∧ Forall (λ ev, is_output ev = false) (trace s)
    ∧ frame_of s "gdf_clean" = Some c
    ∧ frame_of s "block6_gdf" = Some b
    ∧ frame_of s "other_gdf" = Some o
    ∧ crs c = crs file.
Proof.
  intros ([] & sl & Hload & ([] & s0 & Hclean & Hpart)%bind_Done_inv)%bind_Done_inv.
  assert ((loader file;; cleaner) init = Done tt s0) as Hrun
    by (by erewrite bind_Done).
  destruct (partition_run _ _ Hrun)
    as (c & s' & Hc & Hp & _ & Hscript & Hinv & Htr & _ & Hcl & Hb & Ho).
  assert (s' = s) as -> by congruence.
  exists c. do 2 eexists. repeat (split; [done|]).
  apply cleaned_inr in Hc as (i & zs & Hi & Hzs & Hc).
  by eapply cleaned_crs.
Qed.

Lemma needs_reprojection_false (g : GeoDataFrame) :
  needs_reprojection g = false ↔ ∃ k, crs g = Some k ∧ to_epsg k = Some 4326.
Proof.
  unfold needs_reprojection. destruct (crs g) as [k|].
  - rewrite bool_decide_eq_false. split.
    + intros H. exists k. split; [done|].
      destruct (decide (to_epsg k = Some 4326)); [done|]. by destruct H.
    + intros (? & [= <-] & H) Hn. done.
  - split; [done|]. by intros (? & [=] & _).
Qed.

Lemma needs_reprojection_true (g : GeoDataFrame) :
  needs_reprojection g = true ↔
  crs g = None ∨ ∃ k, crs g = Some k ∧ to_epsg k ≠ Some 4326.
Proof.
  unfold needs_reprojection. destruct (crs g) as [k|].
  - rewrite bool_decide_eq_true. split.
    + intros H. right. eauto.
    + by intros [[=]|(? & [= <-] & H)].
  - split; [by left|done].
Qed.

(** The projector looks at the CRS of the cleaned collection.  When the guard
    of line 38 holds, the three collections are each passed to [to_crs] with
    target 4326 and, if the three calls return, the three variables denote
    the reprojected collections; when the CRS is defined with code 4326 the
    projector changes nothing. *)
Lemma projector_reprojects (file : GeoDataFrame) (s : State) :
  (loader file;; cleaner;; partitioner) init = Done tt s →
  ∃ c b o,
    frame_of s "gdf_clean" = Some c
    ∧ frame_of s "block6_gdf" = Some b
    ∧ frame_of s "other_gdf" = Some o
    ∧ crs c = crs file
    ∧ ((crs c = None ∨ ∃ k, crs c = Some k ∧ to_epsg k ≠ Some 4326) →
       ∀ c' b' o',
         to_crs 4326 c = inr c' → to_crs 4326 b = inr b' →
         to_crs 4326 o = inr o' →
         ∃ s', projector s = Done tt s'
           ∧ frame_of s' "gdf_clean" = Some c'
           ∧ frame_of s' "block6_gdf" = Some b'
           ∧ frame_of s' "other_gdf" = Some o')
    ∧ ((∃ k, crs c = Some k ∧ to_epsg k = Some 4326) →
       projector s = Done tt s).
Proof.
  intros Hrun.
  destruct (partition_run_inv _ _ Hrun)
    as (c & b & o & _ & _ & Hinv & _ & Hc & Hb & Ho & Hcrs).
  exists c, b, o. repeat (split; [done|]).
  pose proof (projector_spec s c b o Hinv Hc Hb Ho) as Hspec.
  split.
  - intros Hneed%needs_reprojection_true c' b' o' Ec Eb Eo.
    rewrite Hneed, Ec, Eb, Eo in Hspec.
    destruct Hspec as (s' & Hs' & _ & _ & _ & ? & ? & ?). eauto.
  - intros Hsame%needs_reprojection_false. by rewrite Hsame in Hspec.
Qed.

(** When [to_crs] refuses the cleaned collection (as geopandas does for a
    collection without a CRS), the error ends the run at line 39. *)
Lemma projector_refused (file : GeoDataFrame) (s : State) c e :
  (loader file;; cleaner;; partitioner) init = Done tt s →
  frame_of s "gdf_clean" = Some c →
  needs_reprojection c = true → to_crs 4326 c = inl e →
  projector s = Raised e s ∧ script file init = Raised e s.
Proof.
  intros Hrun Hc Hneed Ec.
  destruct (partition_run_inv _ _ Hrun)
    as (c0 & b & o & _ & Hscript & Hinv & _ & Hc0 & Hb & Ho & _).
  assert (c0 = c) as -> by congruence.
  pose proof (projector_spec s c b o Hinv Hc Hb Ho) as Hspec.
  rewrite Hneed, Ec in Hspec. split; [done|].
  rewrite Hscript. by erewrite bind_Raised.
Qed.

(** C5, where the code departs from it: a collection loaded without a CRS
    passes the guard of line 38, and line 39 hands it to [to_crs], which
    cannot reproject a collection that has no CRS.  With [to_crs] refusing
    such a collection, as geopandas does, the run ends at line 39 with that
    error: the three variables denote the collections as the partitioner left
    them, none reprojected, and nothing has been written. *)
Theorem undefined_crs_is_refused (file : GeoDataFrame) (s : State) :
  (∀ g, crs g = None → ∃ e, to_crs 4326 g = inl e) →
  crs file = None →
  (loader file;; cleaner;; partitioner) init = Done tt s →
  ∃ e c b o,
    frame_of s "gdf_clean" = Some c
    ∧ frame_of s "block6_gdf" = Some b
    ∧ frame_of s "other_gdf" = Some o
    ∧ crs c = None
    ∧ needs_reprojection c = true
    ∧ to_crs 4326 c = inl e
    ∧ projector s = Raised e s
    ∧ script file init = Raised e s
    ∧ outputs (trace s) = [].
Proof.
  intros Hnaive Hnone Hrun.
  destruct (partition_run_inv _ _ Hrun)
    as (c & b & o & _ & _ & _ & Htr & Hc & Hb & Ho & Hcrs).
  rewrite Hnone in Hcrs. destruct (Hnaive c Hcrs) as (e & He).
  assert (needs_reprojection c = true) as Hneed
    by (apply needs_reprojection_true; by left).
  destruct (projector_refused file s c e Hrun Hc Hneed He) as [Hp Hs].
  exists e, c, b, o. repeat (split; [done|]). by apply outputs_none.
Qed.

(** C4: provided [to_crs] tags its result with the CRS asked for, running the
    projector a second time changes nothing: it is the same as running it
    once.  And when the collection loaded is already in EPSG:4326 the
    projector leaves the state, hence every coordinate, as it is. *)
Theorem projector_idempotent (file : GeoDataFrame) (s : State) :
  (∀ g g', to_crs 4326 g = inr g' →
     ∃ k, crs g' = Some k ∧ to_epsg k = Some 4326) →
  (loader file;; cleaner;; partitioner) init = Done tt s →
  (projector;; projector) s = projector s
  ∧ (∀ s1, projector s = Done tt s1 → projector s1 = Done tt s1)
  ∧ ((∃ k, crs file = Some k ∧ to_epsg k = Some 4326) →
     projector s = Done tt s).
Proof.
  intros Htag Hrun.
  destruct (partition_run_inv _ _ Hrun)
    as (c & b & o & _ & _ & Hinv & _ & Hc & Hb & Ho & Hcrs).
  pose proof (projector_spec s c b o Hinv Hc Hb Ho) as Hspec.
  assert (∀ s1, projector s = Done tt s1 → projector s1 = Done tt s1) as Hidem.
  { intros s1 Hs1.
    destruct (needs_reprojection c) eqn:Hneed; [|congruence].
    destruct (to_crs 4326 c) as [e|c'] eqn:Ec; [congruence|].
    destruct (to_crs 4326 b) as [e|b'] eqn:Eb;
      [destruct Hspec as (? & ? & _); congruence|].
    destruct (to_crs 4326 o) as [e|o'] eqn:Eo;
      [destruct Hspec as (? & ? & _); congruence|].
    destruct Hspec as (s' & Hs' & Hinv' & _ & _ & Hc' & Hb' & Ho').
    assert (s' = s1) as -> by congruence.
    pose proof (projector_spec s1 c' b' o' Hinv' Hc' Hb' Ho') as Hspec'.
    apply Htag, needs_reprojection_false in Ec. by rewrite Ec in Hspec'. }
  split; [|split; [done|]].
  - destruct (projector s) as [[] s1|e s1] eqn:Hs.
    + erewrite bind_Done by done. by apply Hidem.
    + by erewrite bind_Raised.
  - rewrite <- Hcrs. intros Hsame%needs_reprojection_false.
    by rewrite Hsame in Hspec.
Qed.

(** ** The map centre *)

(** C10: provided the centroid of an empty union has no coordinates, and
    [to_crs] makes no record out of none, an empty highlighted subset ends
    the run with an error before any file is written; when the projector
    completes, the error is the one of the map centre.  So a run that
    completes had a highlighted subset that was not empty. *)
Theorem empty_highlight_fails (file : GeoDataFrame) (s : State) b :
  lat_lon (centroid (unary_union [])) = None →
  (∀ g g', to_crs 4326 g = inr g' → rows g = [] → rows g' = []) →
  (loader file;; cleaner;; partitioner) init = Done tt s →
  frame_of s "block6_gdf" = Some b →
  (rows b = [] →
   ∃ e s',
     script file init = Raised e s'
     ∧ Forall (λ ev, is_output ev = false) (trace s')
     ∧ (∀ s1, projector s = Done tt s1 →
          e = CentreError ∧ renderer s1 = Raised CentreError s1))
  ∧ (∀ s', script file init = Done tt s' → rows b ≠ []).
Proof.
  intros Hempty Hrows Hrun Hb.
  assert (∀ (s1 : State) b1, frame_of s1 "block6_gdf" = Some b1 → rows b1 = [] →
            renderer s1 = Raised CentreError s1) as Hrender.
  { intros s1 b1 Hb1 Hnil. eapply renderer_no_centre; [done|].
    unfold centre, geometries. rewrite Hnil. simpl. by rewrite Hempty. }
  assert (rows b = [] →
    ∃ e s',
      script file init = Raised e s'
      ∧ Forall (λ ev, is_output ev = false) (trace s')
      ∧ (∀ s1, projector s = Done tt s1 →
           e = CentreError ∧ renderer s1 = Raised CentreError s1)) as Hfail.
  { intros Hnil.
    destruct (partition_run_inv _ _ Hrun)
      as (c & b0 & o & _ & Hscript & Hinv & Htr & Hc & Hb0 & Ho & _).
    assert (b0 = b) as -> by congruence.
    pose proof (projector_spec s c b o Hinv Hc Hb Ho) as Hspec.
    rewrite Hscript.
    destruct (needs_reprojection c).
    - destruct (to_crs 4326 c) as [e|c'] eqn:Ec.
      { exists e, s. split; [by erewrite bind_Raised|]. split; [done|]. congruence. }
      destruct (to_crs 4326 b) as [e|b'] eqn:Eb.
      { destruct Hspec as (s' & Hs' & Htr'). exists e, s'.
        split; [by erewrite bind_Raised|]. split; [by rewrite Htr'|]. congruence. }
      destruct (to_crs 4326 o) as [e|o'] eqn:Eo.
      { destruct Hspec as (s' & Hs' & Htr'). exists e, s'.
        split; [by erewrite bind_Raised|]. split; [by rewrite Htr'|]. congruence. }
      destruct Hspec as (s' & Hs' & _ & Htr' & _ & _ & Hb' & _).
      pose proof (Hrender s' b' Hb' (Hrows _ _ Eb Hnil)) as Hr.
      exists CentreError, s'.
      split; [erewrite bind_Done by done; by erewrite bind_Raised|].
      split; [by rewrite Htr'|].
      intros s1 Hs1. assert (s1 = s') as -> by congruence. done.
    - pose proof (Hrender s b Hb Hnil) as Hr.
      exists CentreError, s.
      split; [erewrite bind_Done by done; by erewrite bind_Raised|].
      split; [done|].
      intros s1 Hs1. assert (s1 = s) as -> by congruence. done. }
  split; [done|].
  intros s' Hdone Hnil. destruct (Hfail Hnil) as (e & s'' & Hr & _). congruence.
Qed.

(** ** The renderer and the exporter *)

Lemma state_eta (s : State) :
  {| heap := heap s; next := next s; globals := globals s; trace := trace s |} = s.
Proof. by destruct s. Qed.

Lemma renderer_spec (s : State) (b o : GeoDataFrame) :
  frame_of s "block6_gdf" = Some b →
  frame_of s "other_gdf" = Some o →
  renderer s =
    match centre b with
    | inl e => Raised e s
    | inr c =>
        match markers b (rows b) with
        | inl e => Raised e s
        | inr labels => Done tt (add_trace s (rendered (block6_map c o b labels)))
        end
    end.
Proof.
  intros (lb & Hlb & Hb)%frame_of_Some (lo & Hlo & Ho)%frame_of_Some.
  unfold renderer. run_ops. look.
  destruct (centre b) as [e|c]; simpl; [done|]. look.
  destruct (markers b (rows b)) as [e|labels]; simpl; [done|].
  unfold add_trace, rendered, block6_map. by rewrite <- app_assoc.
Qed.

Lemma exporter_spec (s : State) (b : GeoDataFrame) :
  frame_of s "block6_gdf" = Some b →
  exporter s = Done tt (add_trace s (exported b)).
Proof.
  intros (lb & Hlb & Hb)%frame_of_Some.
  unfold exporter. run_ops. look.
  unfold add_trace, exported. by rewrite <- !app_assoc.
Qed.

Lemma frame_of_add_trace (s : State) t x :
  frame_of (add_trace s t) x = frame_of s x.
Proof. done. Qed.

Lemma tail_spec (s : State) (c b o : GeoDataFrame) :
  inv s →
  frame_of s "gdf_clean" = Some c →
  frame_of s "block6_gdf" = Some b →
  frame_of s "other_gdf" = Some o →
  match (projector;; renderer;; exporter) s with
  | Raised e s' => trace s' = trace s
  | Done _ s' =>
      ∃ c' b' o' ctr labels,
        projected c b o c' b' o'
        ∧ centre b' = inr ctr
        ∧ markers b' (rows b') = inr labels
        ∧ frame_of s' "gdf" = frame_of s "gdf"
        ∧ frame_of s' "gdf_clean" = Some c'
        ∧ frame_of s' "block6_gdf" = Some b'
        ∧ frame_of s' "other_gdf" = Some o'
        ∧ trace s' = trace s ++ rendered (block6_map ctr o' b' labels) ++ exported b'
  end.
Proof.
  intros Hinv Hc Hb Ho.
  assert (∀ (s1 : State) b' o',
    frame_of s1 "block6_gdf" = Some b' → frame_of s1 "other_gdf" = Some o' →
    match (renderer;; exporter) s1 with
    | Raised e s' => trace s' = trace s1
    | Done _ s' =>
        ∃ ctr labels,
          centre b' = inr ctr ∧ markers b' (rows b') = inr labels
          ∧ (∀ x, frame_of s' x = frame_of s1 x)
          ∧ trace s' = trace s1 ++ rendered (block6_map ctr o' b' labels) ++ exported b'
    end) as Hrest.
  { intros s1 b' o' Hb' Ho'.
    pose proof (renderer_spec s1 b' o' Hb' Ho') as Hr.
    destruct (centre b') as [e|ctr]; [by erewrite bind_Raised|].
    destruct (markers b' (rows b')) as [e|labels]; [by erewrite bind_Raised|].
    erewrite bind_Done by done.
    rewrite (exporter_spec _ b') by done.
    exists ctr, labels. repeat (split; [done|]).
    unfold add_trace. cbn [trace]. by rewrite <- app_assoc. }
  pose proof (projector_spec s c b o Hinv Hc Hb Ho) as Hspec.
  unfold projected.
  destruct (needs_reprojection c).
  - destruct (to_crs 4326 c) as [e|c'] eqn:Ec; [by erewrite bind_Raised|].
    destruct (to_crs 4326 b) as [e|b'] eqn:Eb.
    { destruct Hspec as (s' & Hs' & Htr). by erewrite bind_Raised. }
    destruct (to_crs 4326 o) as [e|o'] eqn:Eo.
    { destruct Hspec as (s' & Hs' & Htr). by erewrite bind_Raised. }
    destruct Hspec as (s' & Hs' & _ & Htr & Hgdf & Hc' & Hb' & Ho').
    erewrite bind_Done by done.
    specialize (Hrest s' b' o' Hb' Ho').
    destruct ((renderer;; exporter) s') as [[] s2|e s2]; [|congruence].
    destruct Hrest as (ctr & labels & ? & ? & Hsame & ?).
    exists c', b', o', ctr, labels. rewrite !Hsame.
    repeat (split; [done || congruence|]). congruence.
  - erewrite bind_Done by done.
    specialize (Hrest s b o Hb Ho).
    destruct ((renderer;; exporter) s) as [[] s2|e s2]; [|done].
    destruct Hrest as (ctr & labels & ? & ? & Hsame & ?).
    exists c, b, o, ctr, labels. rewrite !Hsame. done.
Qed.

Lemma outputs_app (t1 t2 : list effect) :
  outputs (t1 ++ t2) = outputs t1 ++ outputs t2.
Proof. apply filter_app. Qed.

(** The whole run, from the frame the clean-up computes. *)
Lemma script_outcome (file : GeoDataFrame) :
  match cleaned file with
  | inl e => ∃ s, script file init = Raised e s ∧ outputs (trace s) = []
  | inr c =>
      ∃ s3,
        (loader file;; cleaner;; partitioner) init = Done tt s3
        ∧ outputs (trace s3) = []
        ∧ frame_of s3 "gdf" = Some file
        ∧ frame_of s3 "gdf_clean" = Some c
        ∧ frame_of s3 "block6_gdf" = Some (highlighted c)
        ∧ frame_of s3 "other_gdf" = Some (context c)
        ∧ match script file init with
          | Raised e s => outputs (trace s) = []
          | Done _ s =>
              ∃ c' b' o' ctr labels,
                projected c (highlighted c) (context c) c' b' o'
                ∧ centre b' = inr ctr
                ∧ markers b' (rows b') = inr labels
                ∧ frame_of s "gdf" = Some file
                ∧ frame_of s "gdf_clean" = Some c'
                ∧ frame_of s "block6_gdf" = Some b'
                ∧ frame_of s "other_gdf" = Some o'
                ∧ outputs (trace s)
                  = [SaveMap map_path (block6_map ctr o' b' labels);
                     ToFile block6_geojson b'; Mkdir block6_shp_dir;
                     ToFile block6_shp b']
          end
  end.
Proof.
  pose proof (clean_run file) as Hclean.
  destruct (cleaned file) as [e|c] eqn:Hc.
  - destruct Hclean as (s & _ & Hs & Htr). exists s. split; [done|].
    by apply outputs_none.
  - destruct Hclean as (s0 & Hs0 & _).
    destruct (partition_run _ _ Hs0)
      as (c0 & s3 & Hc0 & _ & Hs3 & Hscript & Hinv & Htr & Hgdf & Hcl & Hb & Ho).
    assert (c0 = c) as -> by congruence.
    exists s3. split; [done|]. split; [by apply outputs_none|].
    repeat (split; [done|]).
    rewrite Hscript.
    pose proof (tail_spec s3 c _ _ Hinv Hcl Hb Ho) as Htail.
    destruct ((projector;; renderer;; exporter) s3) as [[] s|e s].
    + destruct Htail as (c' & b' & o' & ctr & labels & ? & ? & ? & Hg & ? & ? & ? & Ht).
      exists c', b', o', ctr, labels. repeat (split; [done || congruence|]).
      rewrite Ht, !outputs_app, (outputs_none _ Htr). done.
    + rewrite Htail. by apply outputs_none.
Qed.

Lemma markers_inr (g : GeoDataFrame) (rs : list Row) cs :
  markers g rs = inr cs → Forall2 (λ r c, marker g r = inr c) rs cs.
Proof.
  revert cs. induction rs as [|r rs IH]; intros cs; simpl.
  - intros [= <-]. constructor.
  - destruct (marker g r) as [e|c] eqn:Hr; [done|].
    destruct (markers g rs) as [e|cs'] eqn:Hrs; [done|].
    intros [= <-]. constructor; [done|]. by apply IH.
Qed.

Lemma marker_inr (g : GeoDataFrame) (r : Row) c :
  marker g r = inr c →
  ∃ x loc i,
    geometry_of g r = Some x ∧ lat_lon (centroid x) = Some loc
    ∧ col_pos "Ward_No" (columns g) = Some i ∧ c = Marker loc (cell_at i r).
Proof.
  unfold marker. destruct (geometry_of g r) as [x|]; [|done].
  destruct (lat_lon (centroid x)) as [loc|] eqn:Hloc; [|done].
  destruct (col_pos "Ward_No" (columns g)) as [i|]; [|done].
  intros [= <-]. by exists x, loc, i.
Qed.

(** ** The whole run *)

(** X8: a completed run has written, in this order, the map, the GeoJSON file,
    the shapefile directory and the shapefile, and nothing else; the two
    exports hold the same collection, the one [block6_gdf] denotes at the end;
    and [gdf] still denotes the collection as loaded. *)
Theorem completed_run_outputs (file : GeoDataFrame) (s : State) :
  script file init = Done tt s →
  ∃ m b,
    outputs (trace s)
    = [SaveMap map_path m; ToFile block6_geojson b;
       Mkdir block6_shp_dir; ToFile block6_shp b]
    ∧ frame_of s "block6_gdf" = Some b
    ∧ frame_of s "gdf" = Some file.
Proof.
  intros Hrun. pose proof (script_outcome file) as H.
  destruct (cleaned file) as [e|c].
  - destruct H as (s' & Hs' & _). congruence.
  - destruct H as (s3 & _ & _ & _ & _ & _ & _ & H). rewrite Hrun in H.
    destruct H as (c' & b' & o' & ctr & labels & _ & _ & _ & ? & _ & ? & _ & ?).
    eauto.
Qed.

(** X9: an error raised while loading, cleaning, partitioning or
    reprojecting (lines 11-41), or for want of a map centre (lines 44-45),
    ends the run, and at that point no file and no directory has been
    written: these computations come before the first write, at line 111. *)
Theorem early_raise_writes_nothing (file : GeoDataFrame) (s : State) e :
  (loader file;; cleaner;; partitioner;; projector) init = Raised e s
  ∨ (∃ b, (loader file;; cleaner;; partitioner;; projector) init = Done tt s
          ∧ frame_of s "block6_gdf" = Some b
          ∧ centre b = inl e) →
  script file init = Raised e s ∧ outputs (trace s) = [].
Proof.
  intros Hearly.
  destruct (loader_spec file) as (sl & Hload & _).
  pose proof (clean_run file) as Hclean.
  destruct (cleaned file) as [e0|c].
  { destruct Hclean as (s0 & Hs0 & Hscript & Htr).
    apply bind_Raised_inv in Hs0 as [Hs0|(a & sl' & Hl & Hs0)]; [congruence|].
    assert ((loader file;; cleaner;; partitioner;; projector) init
            = Raised e0 s0) as Hp.
    { erewrite bind_Done by done. by erewrite bind_Raised. }
    rewrite Hp in Hearly.
    destruct Hearly as [[= -> ->]|(b & [=] & _)].
    split; [done|by apply outputs_none]. }
  destruct Hclean as (s0 & Hs0 & _).
  destruct (partition_run _ _ Hs0)
    as (c0 & s3 & _ & Hpart & _ & Hscript & Hinv & Htr & _ & Hcl & Hb & Ho).
  pose proof Hs0 as (a & sl' & Hl & Hcleaner)%bind_Done_inv.
  assert ((loader file;; cleaner;; partitioner;; projector) init
          = projector s3) as Hp.
  { erewrite bind_Done by done. erewrite bind_Done by done.
    by erewrite bind_Done. }
  rewrite Hp in Hearly. rewrite Hscript.
  pose proof (tail_spec s3 _ _ _ Hinv Hcl Hb Ho) as Htail.
  pose proof (projector_spec s3 _ _ _ Hinv Hcl Hb Ho) as Hproj.
  destruct Hearly as [Hraised|(b & Hdone & Hb' & Hcentre)].
  - erewrite bind_Raised in Htail |- * by done.
    split; [done|]. rewrite Htail. by apply outputs_none.
  - assert (∃ o, frame_of s "other_gdf" = Some o) as (o & Ho').
    { destruct (needs_reprojection c0).
      - destruct (to_crs 4326 c0); [congruence|].
        destruct (to_crs 4326 _);
          [destruct Hproj as (? & ? & _); congruence|].
        destruct (to_crs 4326 _);
          [destruct Hproj as (? & ? & _); congruence|].
        destruct Hproj as (s' & Hs' & _ & _ & _ & _ & _ & ?).
        assert (s' = s) as -> by congruence. eauto.
      - assert (s3 = s) as <- by congruence. eauto. }
    assert (renderer s = Raised e s) as Hrender.
    { rewrite (renderer_spec s b o Hb' Ho'). by rewrite Hcentre. }
    assert ((projector;; renderer;; exporter) s3 = Raised e s) as Hrun.
    { erewrite bind_Done by done. by erewrite bind_Raised. }
    rewrite Hrun in Htail |- *.
    split; [done|]. rewrite Htail. by apply outputs_none.
Qed.

(** X7: the map a completed run saves: it is centred on the centroid of the union
    of the highlighted geometries, at zoom 14; its children are the context
    layer, the highlighted layer, one label per highlighted record and the
    layer control, in this order; and the labels follow the records, each at
    the centroid of its record's geometry with its record's identifier as
    text. *)
Theorem saved_map_labels (file : GeoDataFrame) (s : State) :
  script file init = Done tt s →
  ∃ m b o labels,
    head (outputs (trace s)) = Some (SaveMap map_path m)
    ∧ frame_of s "block6_gdf" = Some b
    ∧ frame_of s "other_gdf" = Some o
    ∧ lat_lon (centroid (unary_union (geometries b))) = Some (location m)
    ∧ zoom_start m = 14
    ∧ (∃ n1 n2,
         children m
         = [GeoJson n1 o ["Ward_No"]; GeoJson n2 b ["Ward_No"; "Population"]]
           ++ labels ++ [LayerControl])
    ∧ Forall2 (λ r l, ∃ x loc i,
         geometry_of b r = Some x ∧ lat_lon (centroid x) = Some loc
         ∧ col_pos "Ward_No" (columns b) = Some i
         ∧ l = Marker loc (cell_at i r)) (rows b) labels.
Proof.
  intros Hrun. pose proof (script_outcome file) as H.
  destruct (cleaned file) as [e|c].
  - destruct H as (s' & Hs' & _). congruence.
  - destruct H as (s3 & _ & _ & _ & _ & _ & _ & H). rewrite Hrun in H.
    destruct H as (c' & b & o & ctr & labels & _ & Hctr & Hm & _ & _ & Hb & Ho & Hout).
    exists (block6_map ctr o b labels), b, o, labels.
    split; [by rewrite Hout|]. split; [done|]. split; [done|].
    split.
    { unfold centre in Hctr. simpl.
      destruct (lat_lon _) as [c0|]; [|done]. congruence. }
    split; [done|]. split; [by eauto|].
    eapply Forall2_impl; [by apply markers_inr|].
    intros r l Hl. by apply marker_inr.
Qed.

(** X10: what is exported is the highlighted subset of the partition: as it is
    when the collection loaded is in EPSG:4326, and what [to_crs] makes of it
    otherwise.  In the first case every exported record has its identifier
    among 429 to 434. *)
Theorem exported_is_highlighted (file : GeoDataFrame) (s : State) :
  script file init = Done tt s →
  ∃ s3 b3 b,
    (loader file;; cleaner;; partitioner) init = Done tt s3
    ∧ frame_of s3 "block6_gdf" = Some b3
    ∧ ToFile block6_geojson b ∈ trace s
    ∧ ToFile block6_shp b ∈ trace s
    ∧ ((∃ k, crs file = Some k ∧ to_epsg k = Some 4326) →
       b = b3
       ∧ Forall (λ r, ∃ z, ward_no b r = Some z ∧ z ∈ block6_wards) (rows b))
    ∧ (¬ (∃ k, crs file = Some k ∧ to_epsg k = Some 4326) →
       to_crs 4326 b3 = inr b).
Proof.
  intros Hrun. pose proof (script_outcome file) as H.
  destruct (cleaned file) as [e|c] eqn:Hc.
  { destruct H as (s' & Hs' & _). congruence. }
  destruct H as (s3 & Hs3 & _ & _ & _ & Hb3 & _ & H). rewrite Hrun in H.
  destruct H as (c' & b & o & ctr & labels & Hproj & _ & _ & _ & _ & _ & _ & Hout).
  exists s3, (highlighted c), b. split; [done|]. split; [done|].
  assert (∀ e, e ∈ outputs (trace s) → e ∈ trace s) as Hin.
  { intros e0 He. by apply list_elem_of_filter in He as [_ ?]. }
  split; [apply Hin; rewrite Hout; set_solver|].
  split; [apply Hin; rewrite Hout; set_solver|].
  apply cleaned_inr in Hc as (i & zs & Hi & Hzs & Hc).
  pose proof (cleaned_crs _ _ _ Hc) as Hcrs.
  unfold projected in Hproj. split.
  - rewrite <- Hcrs. intros Hsame%needs_reprojection_false.
    rewrite Hsame in Hproj. destruct Hproj as (_ & -> & _). split; [done|].
    apply Forall_forall. intros r [Hr _]%list_elem_of_filter.
    by apply in_block6_ward in Hr.
  - rewrite <- Hcrs. intros Hdiff.
    destruct (needs_reprojection c) eqn:Hneed; [by destruct Hproj as (_ & ? & _)|].
    destruct Hdiff. by apply needs_reprojection_false.
Qed.

(** ** Aliasing *)

Lemma fresh_insert_at (G : gmap string loc) x l0 :
  fresh G l0 → fresh (<[x := l0]> G) (S l0).
Proof.
  intros [Hinv Hinj]. split.
  - apply inv_on_insert; [|lia]. eapply inv_on_mono; [done|lia].
  - intros y z l. destruct (decide (x = y)) as [<-|Hy], (decide (x = z)) as [<-|Hz];
      rewrite ?lookup_insert_eq, ?lookup_insert_ne by done; try done.
    + intros [= <-] Hz'. apply Hinv in Hz'. lia.
    + intros Hy' [= <-]. apply Hinv in Hy'. lia.
    + apply Hinj.
Qed.

Lemma fresh_mono (G : gmap string loc) n n' : fresh G n → (n ≤ n')%nat → fresh G n'.
Proof. intros [Hinv Hinj] Hn. split; [by eapply inv_on_mono|done]. Qed.

Lemma hoare_bind {A B} (P : State → Prop) (Q : A → State → Prop)
    (R : B → State → Prop) (m : M A) (k : A → M B) :
  hoare P m Q → (∀ a, hoare (Q a) (k a) R) → hoare P (m ≫= k) R.
Proof.
  intros Hm Hk s b s' HP Hrun.
  apply bind_Done_inv in Hrun as (a & s1 & H1 & H2).
  eapply Hk; [|done]. by eapply Hm.
Qed.

Lemma hoare_post {A} (P : State → Prop) (Q R : A → State → Prop) (m : M A) :
  hoare P m Q → (∀ a s, Q a s → R a s) → hoare P m R.
Proof. intros Hm HQ s a s' HP Hrun. by eapply HQ, Hm. Qed.

Lemma allocated_no_alias l (s : State) : allocated l s → no_alias s.
Proof. intros [Hf Hn]. unfold no_alias. rewrite Hn. eapply fresh_mono; [done|lia]. Qed.

(** Statements that leave the state alone. *)
Lemma hoare_var (P : State → Prop) x : hoare P (var x) (λ _, P).
Proof. intros s a s' HP H. unfold var in H. by case_match; simplify_eq. Qed.

Lemma hoare_deref (P : State → Prop) l : hoare P (deref l) (λ _, P).
Proof. intros s a s' HP H. unfold deref in H. by case_match; simplify_eq. Qed.

Lemma hoare_lift {A} (P : State → Prop) (r : exn + A) : hoare P (lift r) (λ _, P).
Proof.
  intros s a s' HP H. destruct r; unfold lift, raise, mret, M_ret in H;
    by simplify_eq.
Qed.

Lemma hoare_ret {A} (P : State → Prop) (x : A) : hoare P (mret x) (λ _, P).
Proof. intros s a s' HP H. unfold mret, M_ret in H. by simplify_eq. Qed.

(** Statements that touch the objects or the trace, not the variables. *)
Lemma hoare_store_no_alias l g : hoare no_alias (store l g) (λ _, no_alias).
Proof. intros s a s' HP H. unfold store in H. by simplify_eq. Qed.

Lemma hoare_emit_no_alias e : hoare no_alias (emit e) (λ _, no_alias).
Proof. intros s a s' HP H. unfold emit in H. by simplify_eq. Qed.

(** A new object, and a variable bound to it. *)
Lemma hoare_alloc g : hoare no_alias (alloc g) allocated.
Proof.
  intros s a s' HP H. unfold alloc in H. simplify_eq. by split.
Qed.

Lemma hoare_alloc_again l0 g : hoare (allocated l0) (alloc g) allocated.
Proof.
  intros s a s' HP%allocated_no_alias H. by eapply hoare_alloc.
Qed.

Lemma hoare_assign x l : hoare (allocated l) (assign x l) (λ _, no_alias).
Proof.
  intros s a s' [Hf Hn] H. unfold assign in H. simplify_eq.
  unfold no_alias. simpl. rewrite Hn. by apply fresh_insert_at.
Qed.

Ltac hoare_prim :=
  first
    [ apply hoare_var | apply hoare_deref | apply hoare_lift | apply hoare_ret
    | apply hoare_store_no_alias | apply hoare_emit_no_alias
    | apply hoare_alloc | apply hoare_alloc_again | apply hoare_assign ].

Ltac hoare_steps :=
  repeat
    (cbv beta zeta;
     lazymatch goal with
     | |- hoare _ (_ ≫= _) _ => eapply hoare_bind; [ | intros ? ]
     | |- hoare _ (if ?b then _ else _) _ => destruct b
     | |- hoare _ _ (λ _, no_alias) =>
         first [ hoare_prim
               | eapply hoare_post; [hoare_prim | by intros ? ? ?%allocated_no_alias] ]
     | |- hoare _ _ _ => hoare_prim
     end).

Lemma cleaner_no_alias : hoare no_alias cleaner (λ _, no_alias).
Proof. unfold cleaner. hoare_steps. Qed.

Lemma partitioner_no_alias : hoare no_alias partitioner (λ _, no_alias).
Proof. unfold partitioner. hoare_steps. Qed.

Lemma projector_no_alias : hoare no_alias projector (λ _, no_alias).
Proof. unfold projector, reproject. hoare_steps. Qed.

Lemma renderer_no_alias : hoare no_alias renderer (λ _, no_alias).
Proof. unfold renderer. hoare_steps. Qed.

Lemma exporter_no_alias : hoare no_alias exporter (λ _, no_alias).
Proof. unfold exporter. hoare_steps. Qed.

Lemma loader_no_alias (file : GeoDataFrame) :
  hoare no_alias (loader file) (λ _, no_alias).
Proof. unfold loader. hoare_steps. Qed.

Lemma init_no_alias : no_alias init.
Proof.
  split; [apply inv_on_empty|]. intros x y l. unfold init. simpl.
  by rewrite lookup_empty.
Qed.

Lemma script_no_alias (file : GeoDataFrame) (s : State) :
  script file init = Done tt s → no_alias s.
Proof.
  assert (hoare no_alias (script file) (λ _, no_alias)) as H.
  { unfold script.
    eapply hoare_bind; [apply loader_no_alias|intros ?].
    eapply hoare_bind; [apply cleaner_no_alias|intros ?].
    eapply hoare_bind; [apply partitioner_no_alias|intros ?].
    eapply hoare_bind; [apply projector_no_alias|intros ?].
    eapply hoare_bind; [apply renderer_no_alias|intros ?].
    apply exporter_no_alias. }
  intros Hrun. eapply H; [apply init_no_alias|done].
Qed.

(** X11: at the end of a completed run the four variables [gdf], [gdf_clean],
    [block6_gdf] and [other_gdf] denote four different objects: the cleaned
    collection and the two subsets are copies, and an update of one cannot
    show through another. *)
Theorem collections_do_not_alias (file : GeoDataFrame) (s : State) :
  script file init = Done tt s →
  ∃ l0 l1 l2 l3,
    globals s !! "gdf" = Some l0
    ∧ globals s !! "gdf_clean" = Some l1
    ∧ globals s !! "block6_gdf" = Some l2
    ∧ globals s !! "other_gdf" = Some l3
    ∧ NoDup [l0; l1; l2; l3]
    ∧ (∀ l, l ∈ [l0; l1; l2; l3] → is_Some (heap s !! l)).
Proof.
  intros Hrun.
  pose proof (script_no_alias _ _ Hrun) as [_ Hinj].
  pose proof (script_outcome file) as H.
  destruct (cleaned file) as [e|c].
  { destruct H as (s' & Hs' & _). congruence. }
  destruct H as (s3 & _ & _ & _ & _ & _ & _ & H). rewrite Hrun in H.
  destruct H as (c' & b' & o' & ctr & labels & _ & _ & _
                 & (l0 & H0 & G0)%frame_of_Some & (l1 & H1 & G1)%frame_of_Some
                 & (l2 & H2 & G2)%frame_of_Some & (l3 & H3 & G3)%frame_of_Some & _).
  exists l0, l1, l2, l3. repeat (split; [done|]). split.
  - assert (∀ x y l l', globals s !! x = Some l → globals s !! y = Some l' →
              x ≠ y → l ≠ l') as Hne.
    { intros x y l l' Hx Hy Hxy ->. by apply Hxy, (Hinj x y l'). }
    repeat constructor; rewrite ?not_elem_of_cons; repeat split;
      try apply not_elem_of_nil; eapply Hne; done.
  - intros l. rewrite !elem_of_cons, elem_of_nil.
    intros [->|[->|[->|[->|[]]]]]; eauto.
Qed.

(** ** More on the clean-up *)

(** X1: without a column "Ward_No" the run stops at line 20 with a key error,
    right after the two lines the loader prints; and a key error is raised by
    the clean-up in this case only. *)
Theorem missing_ward_column (file : GeoDataFrame) :
  ((∃ k s, (loader file;; cleaner) init = Raised (KeyError k) s)
   ↔ "Ward_No" ∉ columns file)
  ∧ ("Ward_No" ∉ columns file →
     ∃ s, script file init = Raised (KeyError "Ward_No") s
       ∧ trace s = [Print (PColumns (columns file)); Print (PCRS (crs file))]).
Proof.
  destruct (loader_spec file) as (s0 & Hload & Hinv & Hgdf & Htr).
  pose proof (cleaner_spec s0 file Hinv Hgdf) as Hclean.
  assert ((loader file;; cleaner) init = cleaner s0) as Hrun
    by (by erewrite bind_Done).
  assert (script file init = (cleaner;; partitioner;; projector;; renderer;; exporter) s0)
    as Hscript by (unfold script; by erewrite bind_Done).
  unfold cleaned, cast_ward, getitem in Hclean.
  destruct (col_pos "Ward_No" (columns file)) as [i|] eqn:Hpos.
  - assert ("Ward_No" ∈ columns file) as Hin by (apply col_pos_is_Some; eauto).
    split; [|done]. split; [|done].
    intros (k & s & Hs). rewrite Hrun in Hs.
    destruct (astype_int (cell_at i <$> rows file)) as [e|zs] eqn:Hzs.
    + apply astype_int_from_inl in Hzs as (? & ? & -> & _).
      destruct Hclean as (s' & Hs' & _). congruence.
    + destruct Hclean as (s' & Hs' & _). congruence.
  - apply col_pos_None in Hpos. destruct Hclean as (s' & Hs' & Htr').
    split; [split; [done|]|].
    + intros _. exists "Ward_No", s'. congruence.
    + intros _. exists s'. split; [|congruence].
      rewrite Hscript. by erewrite bind_Raised.
Qed.

Lemma geometries_alt (g : GeoDataFrame) :
  geometries g =
    match col_pos "geometry" (columns g) with
    | Some i => omap geom_cell (cell_at i <$> rows g)
    | None => []
    end.
Proof.
  unfold geometries, geometry_of.
  destruct (col_pos "geometry" (columns g)) as [i|]; simpl.
  - induction (rows g) as [|r rs IH]; csimpl; [done|]. rewrite IH.
    unfold geom_cell. by destruct (cell_at i r).
  - by induction (rows g) as [|r rs IH].
Qed.

Lemma population_col_pos (g : GeoDataFrame) name :
  name ≠ "SUM_Final_" → name ≠ "Population" →
  col_pos name (columns (population g)) = col_pos name (columns g).
Proof.
  intros Hsum Hpop. unfold population. destruct (has_column g "SUM_Final_").
  - simpl. apply col_pos_relabel. intros c. case_decide; split; congruence.
  - rewrite setitem_scalar_columns. case_decide; [done|].
    destruct (col_pos name (columns g)) as [i|] eqn:Hi.
    + by apply col_pos_app_l.
    + apply col_pos_None. apply col_pos_None in Hi.
      intros [?|?%list_elem_of_singleton]%elem_of_app; done.
Qed.

Lemma population_other_cells (g : GeoDataFrame) j name :
  columns g !! j = Some name → name ≠ "Population" →
  cell_at j <$> rows (population g) = cell_at j <$> rows g.
Proof.
  intros Hj Hpop. unfold population. destruct (has_column g "SUM_Final_"); [done|].
  unfold setitem_scalar.
  destruct (col_pos "Population" (columns g)) as [p|] eqn:Hp.
  - eapply setitem_old_other; [by rewrite length_replicate|done|].
    intros ->. apply col_pos_Some in Hp. congruence.
  - unfold setitem. rewrite Hp. csimpl. apply zip_with_add_none.
Qed.

Lemma population_labels (g : GeoDataFrame) :
  label <$> rows (population g) = label <$> rows g.
Proof.
  unfold population, setitem_scalar. destruct (has_column g "SUM_Final_"); [done|].
  apply setitem_labels. by rewrite length_replicate.
Qed.

(** X2: the clean-up neither drops, adds nor reorders records, keeps the CRS and
    the geometries, and leaves the cells of every column other than "Ward_No"
    and "Population" as they were loaded. *)
Theorem cleanup_keeps_records (file : GeoDataFrame) (s : State) :
  (loader file;; cleaner) init = Done tt s →
  ∃ c,
    frame_of s "gdf_clean" = Some c
    ∧ label <$> rows c = label <$> rows file
    ∧ crs c = crs file
    ∧ geometries c = geometries file
    ∧ ∀ j name, columns file !! j = Some name →
        name ≠ "Ward_No" → name ≠ "Population" →
        cell_at j <$> rows c = cell_at j <$> rows file.
Proof.
  intros Hrun.
  destruct (clean_run_Done _ _ Hrun) as (c & Hc & _ & _ & _ & Hclean & _).
  exists c. split; [done|].
  apply cleaned_inr in Hc as (i & zs & Hi & Hzs & Hc).
  split; [by eapply cleaned_labels|]. split; [by eapply cleaned_crs|].
  set (g1 := setitem file "Ward_No" (VInt <$> zs)) in *.
  assert (length (VInt <$> zs : list value) = length (rows file)) as Hlen.
  { apply Forall2_length in Hzs. by rewrite !length_fmap in *. }
  assert (columns g1 = columns file) as Hcols by (by eapply setitem_old_columns).
  assert (∀ j name, columns file !! j = Some name →
            name ≠ "Ward_No" → name ≠ "Population" →
            cell_at j <$> rows c = cell_at j <$> rows file) as Hcells.
  { intros j name Hj Hw Hp. rewrite Hc.
    rewrite (population_other_cells g1 j name) by (by rewrite ?Hcols).
    eapply setitem_old_other; [done..|].
    intros ->. apply col_pos_Some in Hi. congruence. }
  split; [|done].
  rewrite !geometries_alt.
  rewrite Hc at 1. rewrite population_col_pos by done. rewrite Hcols.
  destruct (col_pos "geometry" (columns file)) as [ig|] eqn:Hg; [|done].
  apply col_pos_Some in Hg. by rewrite (Hcells ig "geometry").
Qed.

(** X3: column labels after the clean-up: starting from distinct labels, they stay
    distinct unless the collection loaded has both "SUM_Final_" and
    "Population"; then the renaming of line 24 leaves two columns called
    "Population". *)
Theorem population_label_clash (file : GeoDataFrame) (s : State) :
  NoDup (columns file) →
  (loader file;; cleaner) init = Done tt s →
  ∃ c,
    frame_of s "gdf_clean" = Some c
    ∧ (NoDup (columns c)
       ↔ ¬ ("SUM_Final_" ∈ columns file ∧ "Population" ∈ columns file)).
Proof.
  intros Hnd Hrun.
  destruct (clean_run_Done _ _ Hrun) as (c & Hc & _ & _ & _ & Hclean & _).
  exists c. split; [done|].
  apply cleaned_inr in Hc as (i & zs & Hi & Hzs & Hc).
  set (g1 := setitem file "Ward_No" (VInt <$> zs)) in *.
  assert (columns g1 = columns file) as Hcols by (by eapply setitem_old_columns).
  rewrite Hc. unfold population, has_column. rewrite Hcols.
  case_bool_decide as Hsum.
  - unfold rename. simpl. rewrite Hcols.
    destruct (decide ("Population" ∈ columns file)) as [Hpop|Hpop].
    + split; [|intros Hn; by destruct Hn]. intros Hnd' _.
      apply list_elem_of_lookup in Hsum as [a Ha], Hpop as [b Hb].
      assert (a = b) as ->; [|congruence].
      eapply (NoDup_lookup _ a b "Population"); [done|..];
        rewrite list_lookup_fmap; [rewrite Ha|rewrite Hb]; done.
    + split; [by intros _ [_ ?]|]. intros _.
      apply NoDup_fmap_2_strong; [|done].
      intros x y Hx Hy. repeat case_decide; congruence.
  - split; [by intros _ [? _]|]. intros _.
    rewrite setitem_scalar_columns, Hcols. case_decide; [done|].
    apply NoDup_app. split; [done|]. split; [|apply NoDup_singleton].
    by intros x Hx ->%list_elem_of_singleton.
Qed.

(** X4: without "SUM_Final_", a column "Population" the collection already has is
    overwritten: the column list stays as it is and every cell of that column
    becomes null, whatever was loaded. *)
Theorem existing_population_overwritten (file : GeoDataFrame) (s : State) p :
  wf_frame file →
  "SUM_Final_" ∉ columns file →
  col_pos "Population" (columns file) = Some p →
  (loader file;; cleaner) init = Done tt s →
  ∃ c,
    frame_of s "gdf_clean" = Some c
    ∧ columns c = columns file
    ∧ cell_at p <$> rows c = replicate (length (rows file)) VNone.
Proof.
  intros Hwf Hsum Hp Hrun.
  destruct (clean_run_Done _ _ Hrun) as (c & Hc & _ & _ & _ & Hclean & _).
  exists c. split; [done|].
  apply cleaned_inr in Hc as (i & zs & Hi & Hzs & Hc).
  set (g1 := setitem file "Ward_No" (VInt <$> zs)) in *.
  assert (length (VInt <$> zs : list value) = length (rows file)) as Hlen.
  { apply Forall2_length in Hzs. by rewrite !length_fmap in *. }
  assert (columns g1 = columns file) as Hcols by (by eapply setitem_old_columns).
  assert (length (rows g1) = length (rows file)) as Hrows by (by apply setitem_length).
  assert (wf_frame g1) as Hwf1 by (by apply setitem_wf).
  rewrite Hc. unfold population, has_column. rewrite Hcols.
  rewrite bool_decide_eq_false_2 by done. unfold setitem_scalar. split.
  - erewrite setitem_old_columns; [done|by rewrite Hcols].
  - rewrite <- Hrows. apply setitem_old_read; [done| |by rewrite Hcols].
    by rewrite length_replicate.
Qed.

(** ** The console line of the partitioner *)

Lemma partitioner_prints (s : State) (c : GeoDataFrame) i :
  inv s → frame_of s "gdf_clean" = Some c →
  col_pos "Ward_No" (columns c) = Some i →
  ∃ s', partitioner s = Done tt s'
    ∧ trace s' = trace s ++ [Print (PWards (wards_present (highlighted c)))].
Proof.
  intros Hi (l & Hl & Hg)%frame_of_Some Hpos.
  pose proof (inv_lookup_lt _ _ _ Hi Hl) as Hlt.
  unfold partitioner, getitem. run_ops. look.
  repeat (look; rewrite ?Hpos; run_ops).
  eexists. split; [reflexivity|]. simpl.
  unfold wards_present, highlighted, getitem. simpl. rewrite Hpos.
  by rewrite (select_block6 _ _ Hpos).
Qed.

Lemma ints_elem (ws : list value) z : z ∈ ints ws ↔ VInt z ∈ ws.
Proof.
  unfold ints. rewrite list_elem_of_omap. split.
  - intros (v & Hv & Hz). destruct v; by simplify_eq.
  - intros Hv. by exists (VInt z).
Qed.

(** X6: the list line 35 prints: it is sorted, without repetition, and holds
    exactly the identifiers of the records of the highlighted subset; so it is
    a part of 429 to 434, of at most six entries. *)
Theorem printed_wards (file : GeoDataFrame) (s0 : State) :
  (loader file;; cleaner) init = Done tt s0 →
  ∃ s b l,
    partitioner s0 = Done tt s
    ∧ frame_of s "block6_gdf" = Some b
    ∧ last (trace s) = Some (Print (PWards l))
    ∧ Sorted Z.le l
    ∧ NoDup l
    ∧ (∀ z, z ∈ l ↔ ∃ r, r ∈ rows b ∧ ward_no b r = Some z)
    ∧ (∀ z, z ∈ l → z ∈ block6_wards)
    ∧ (length l ≤ 6)%nat.
Proof.
  intros Hrun.
  destruct (partition_run _ _ Hrun)
    as (c & s & Hc & Hs & _ & _ & _ & _ & _ & _ & Hb & _).
  destruct (clean_run_Done _ _ Hrun) as (c0 & Hc0 & Hinv & _ & _ & Hclean & _).
  assert (c0 = c) as -> by congruence.
  apply cleaned_inr in Hc as (i & zs & Hi & Hzs & Hc).
  pose proof (cleaned_ward_pos _ _ _ _ Hi Hc) as Hpos.
  destruct (partitioner_prints s0 c i Hinv Hclean Hpos) as (s' & Hs' & Htr).
  assert (s' = s) as -> by congruence.
  exists s, (highlighted c), (wards_present (highlighted c)).
  split; [done|]. split; [done|]. split; [by rewrite Htr, last_snoc|].
  assert (∀ z, z ∈ wards_present (highlighted c)
            ↔ ∃ r, r ∈ rows (highlighted c) ∧ ward_no (highlighted c) r = Some z)
    as Hmem.
  { intros z. unfold wards_present, getitem, ward_no. simpl. rewrite Hpos. simpl.
    rewrite merge_sort_Permutation, elem_of_remove_dups, ints_elem,
      list_elem_of_fmap.
    split.
    - intros (r & Hr & Hin). exists r. split; [done|]. by rewrite <- Hr.
    - intros (r & Hin & Hr). exists r. split; [|done].
      by destruct (cell_at i r); simplify_eq. }
  assert (∀ z, z ∈ wards_present (highlighted c) → z ∈ block6_wards) as Hsub.
  { intros z (r & [Hr _]%list_elem_of_filter & Hz)%Hmem.
    apply in_block6_ward in Hr as (z' & Hz' & ?).
    unfold ward_no in Hz. simpl in Hz. unfold ward_no in Hz'. congruence. }
  assert (NoDup (wards_present (highlighted c))) as Hnd.
  { unfold wards_present. destruct (getitem _ _); [constructor|].
    rewrite merge_sort_Permutation. apply NoDup_remove_dups. }
  split.
  { unfold wards_present. destruct (getitem _ _); [constructor|].
    apply (Sorted_merge_sort Z.le). }
  split; [done|]. split; [done|]. split; [done|].
  change 6%nat with (length block6_wards).
  by apply submseteq_length, NoDup_submseteq.
Qed.

(** X5: both subsets have the columns and the CRS of the cleaned collection,
    "Ward_No" and "Population" among the columns: the fields the two tooltips
    name exist in the layer they belong to. *)
Theorem subsets_schema (file : GeoDataFrame) (s0 : State) :
  (loader file;; cleaner) init = Done tt s0 →
  partitioned s0 (λ c b o,
    columns b = columns c ∧ columns o = columns c
    ∧ crs b = crs file ∧ crs o = crs file
    ∧ "Ward_No" ∈ columns o
    ∧ "Ward_No" ∈ columns b ∧ "Population" ∈ columns b).
Proof.
  intros Hrun. apply (partitioned_intro file); [done|]. intros c Hc. simpl.
  apply cleaned_inr in Hc as (i & zs & Hi & Hzs & Hc).
  pose proof (cleaned_ward_pos _ _ _ _ Hi Hc) as Hpos.
  pose proof (cleaned_crs _ _ _ Hc) as Hcrs.
  assert ("Ward_No" ∈ columns c) by (apply col_pos_is_Some; eauto).
  repeat (split; [done|]). rewrite Hc. apply population_columns.
Qed.

End WardMap.




(** The hypotheses of C6 hold of the sample collection, whose column
    "SUM_Final_" is relabelled, and of the sample without that column, which
    gets a null column "Population". *)
Lemma population_renamed_or_null_sample :
  (wf_frame sample
   ∧ getitem sample "Ward_No"
     = inr [VStr "428"; VStr "429"; VStr "431"; VStr "12"; VStr "434"]
   ∧ astype_int [VStr "428"; VStr "429"; VStr "431"; VStr "12"; VStr "434"]
     = inr [428; 429; 431; 12; 434]
   ∧ "SUM_Final_" ∈ columns sample
   ∧ ∃ s c,
       (loader sample;; cleaner) init = Done tt s
       ∧ frame_of s "gdf_clean" = Some c
       ∧ columns c = ["Ward_No"; "Population"; "geometry"]
       ∧ cell_at 1 <$> rows c
         = [VInt 1500; VInt 2100; VInt 1800; VInt 900; VInt 2500])
  ∧ (wf_frame sample_no_population
     ∧ getitem sample_no_population "Ward_No" = inr [VInt 428; VInt 429; VInt 12]
     ∧ astype_int [VInt 428; VInt 429; VInt 12] = inr [428; 429; 12]
     ∧ ("SUM_Final_" ∉ columns sample_no_population)
     ∧ ∃ s c,
         (loader sample_no_population;; cleaner) init = Done tt s
         ∧ frame_of s "gdf_clean" = Some c
         ∧ "Population" ∈ columns c
         ∧ getitem c "Population" = inr [VNone; VNone; VNone]
         ∧ length (rows c) = 3%nat).
Proof.
  assert (wf_frame sample) as Hwf by (by repeat constructor).
  assert (wf_frame sample_no_population) as Hwf' by (by repeat constructor).
  assert ("SUM_Final_" ∈ columns sample) as Hin by (by repeat constructor).
  assert ("SUM_Final_" ∉ columns sample_no_population) as Hnin.
  { simpl. rewrite !not_elem_of_cons. repeat split; try done.
    apply not_elem_of_nil. }
  assert (getitem sample "Ward_No"
          = inr [VStr "428"; VStr "429"; VStr "431"; VStr "12"; VStr "434"])
    as Hws by reflexivity.
  assert (astype_int (libs := grid)
            [VStr "428"; VStr "429"; VStr "431"; VStr "12"; VStr "434"]
          = inr [428; 429; 431; 12; 434]) as Hzs by (vm_compute; reflexivity).
  assert (getitem sample_no_population "Ward_No"
          = inr [VInt 428; VInt 429; VInt 12]) as Hws' by reflexivity.
  assert (astype_int (libs := grid) [VInt 428; VInt 429; VInt 12]
          = inr [428; 429; 12]) as Hzs' by (vm_compute; reflexivity).
  split.
  - repeat (split; [done|]).
    destruct (population_renamed_or_null sample _ _ Hwf Hws Hzs)
      as (s & c & Hrun & Hc & _ & _ & _ & Hrenamed & _).
    destruct (Hrenamed Hin) as [Hcols Hcells].
    exists s, c. split; [done|]. split; [done|]. split; [done|].
    by destruct (Hcells 1%nat eq_refl) as [_ ->].
  - repeat (split; [done|]).
    destruct (population_renamed_or_null sample_no_population _ _ Hwf' Hws' Hzs')
      as (s & c & Hrun & Hc & Hpop & _ & Hlen & _ & Hnull).
    exists s, c. split; [done|]. split; [done|]. split; [done|].
    split; [by apply Hnull|done].
Defined.



(** The hypotheses of C9, as amended, hold of the sample collection. *)
Lemma cleanup_works_on_a_copy_sample :
  wf_frame sample
  ∧ ∃ s, (loader sample;; cleaner) init = Done tt s
      ∧ frame_of s "gdf" = Some sample
      ∧ ∃ c zs,
          frame_of s "gdf_clean" = Some c
          ∧ globals s !! "gdf" ≠ globals s !! "gdf_clean"
          ∧ getitem c "Ward_No" = inr (VInt <$> zs)
          ∧ "Population" ∈ columns c
          ∧ "SUM_Final_" ∉ columns c.
Proof.
  split; [by repeat constructor|].
  eexists. split; [vm_compute; reflexivity|].
  apply (cleanup_works_on_a_copy sample).
  - by repeat constructor.
  - vm_compute. reflexivity.
Defined.

(** C9 as stated fails: after the clean-up of the sample collection, the
    object the loader returned (the variable [gdf]) still has its identifiers
    as text and its population column under the name "SUM_Final_". *)
Lemma loaded_collection_not_cleaned :
  ∃ s g,
    (loader sample;; cleaner) init = Done tt s
    ∧ frame_of s "gdf" = Some g
    ∧ getitem g "Ward_No"
      = inr [VStr "428"; VStr "429"; VStr "431"; VStr "12"; VStr "434"]
    ∧ columns g = ["Ward_No"; "SUM_Final_"; "geometry"]
    ∧ "Population" ∉ columns g.
Proof.
  do 2 eexists. split; [vm_compute; reflexivity|].
  split; [vm_compute; reflexivity|].
  split; [reflexivity|]. split; [reflexivity|].
  simpl. rewrite !not_elem_of_cons. repeat split; try done. apply not_elem_of_nil.
Qed.

(** The hypotheses of C3, as amended, hold of wards 1 to 600 without 433
    and 434. *)
Lemma four_of_six_present_sample :
  wf_frame wards_1_600
  ∧ getitem wards_1_600 "Ward_No"
    = inr (VInt <$> filter (λ z, z ≠ 433 ∧ z ≠ 434) (seqZ 1 600))
  ∧ ∃ s0,
      (loader wards_1_600;; cleaner) init = Done tt s0
      ∧ partitioned s0 (λ c b o,
          length (rows c) = 598%nat
          ∧ length (rows b) = 4%nat
          ∧ length (rows o) = 594%nat
          ∧ (∃ wb, getitem b "Ward_No" = inr wb
               ∧ ints wb ≡ₚ filter (λ z, z ≠ 433 ∧ z ≠ 434) block6_wards)
          ∧ (∀ r, r ∈ rows b ↔
               r ∈ rows c ∧ ∃ z, ward_no c r = Some z ∧ z ∈ block6_wards)
          ∧ (∀ r, r ∈ rows o ↔ r ∈ rows c ∧ r ∉ rows b)).
Proof.
  assert (wf_frame wards_1_600) as Hwf.
  { unfold wf_frame, wards_1_600. cbn [rows columns].
    apply Forall_fmap, Forall_true. done. }
  split; [done|]. split; [vm_compute; reflexivity|].
  apply (four_of_six_present wards_1_600
           (VInt <$> filter (λ z, z ≠ 433 ∧ z ≠ 434) (seqZ 1 600))
           (filter (λ z, z ≠ 433 ∧ z ≠ 434) (seqZ 1 600)) 433 434).
  - done.
  - vm_compute. reflexivity.
  - apply Forall2_fmap_l, Forall_Forall2_diag, Forall_forall.
    intros z [_ Hz%elem_of_seqZ]%list_elem_of_filter.
    simpl. unfold py_int. simpl.
    assert (int64 z = true) as ->; [|done].
    unfold int64. apply andb_true_iff. split; [apply Z.leb_le|apply Z.ltb_lt]; lia.
  - done.
  - unfold block6_wards. set_solver.
  - unfold block6_wards. set_solver.
  - done.
Defined.

(** C3 as stated fails: on wards 1 to 600 without 433 and 434 the context
    subset has 594 records, not 596. *)
Lemma context_is_594_not_596 :
  ∃ s0,
    (loader wards_1_600;; cleaner) init = Done tt s0
    ∧ partitioned s0 (λ c b o,
        length (rows c) = 598%nat
        ∧ length (rows b) = 4%nat
        ∧ length (rows o) = 594%nat
        ∧ length (rows o) ≠ 596%nat).
Proof.
  eexists. split; [vm_compute; reflexivity|].
  do 4 eexists. split; [vm_compute; reflexivity|].
  split; [vm_compute; reflexivity|]. split; [vm_compute; reflexivity|].
  split; [vm_compute; reflexivity|].
  split; [vm_compute; reflexivity|]. split; [vm_compute; reflexivity|].
  split; [vm_compute; reflexivity|]. vm_compute. discriminate.
Qed.

Lemma retag_tags (g g' : GeoDataFrame geometry) :
  to_crs 4326 g = inr g' → ∃ k, crs g' = Some k ∧ to_epsg k = Some 4326.
Proof.
  simpl. unfold retag. destruct (crs g); [|done]. intros [= <-]. eauto.
Qed.

Lemma retag_rows (g g' : GeoDataFrame geometry) :
  to_crs 4326 g = inr g' → rows g = [] → rows g' = [].
Proof. simpl. unfold retag. destruct (crs g); [|done]. by intros [= <-]. Qed.

(** The hypotheses of C5's divergence hold of the stand-in library and the
    sample without a CRS: the run ends at line 39. *)
Lemma undefined_crs_is_refused_sample :
  (∀ g : GeoDataFrame geometry, crs g = None → ∃ e, to_crs 4326 g = inl e)
  ∧ crs sample_naive = None
  ∧ ∃ s, (loader sample_naive;; cleaner;; partitioner) init = Done tt s
      ∧ ∃ e c b o,
          frame_of s "gdf_clean" = Some c
          ∧ frame_of s "block6_gdf" = Some b
          ∧ frame_of s "other_gdf" = Some o
          ∧ crs c = None
          ∧ needs_reprojection c = true
          ∧ to_crs 4326 c = inl e
          ∧ projector s = Raised e s
          ∧ script sample_naive init = Raised e s
          ∧ outputs (trace s) = [].
Proof.
  assert (∀ g : GeoDataFrame geometry, crs g = None →
            ∃ e, to_crs 4326 g = inl e) as Hnaive.
  { intros g Hg. simpl. unfold retag. rewrite Hg. eauto. }
  split; [done|]. split; [reflexivity|].
  eexists. split; [vm_compute; reflexivity|].
  apply (undefined_crs_is_refused sample_naive); [done|reflexivity|].
  vm_compute. reflexivity.
Defined.

(** The hypotheses of C4 hold of the stand-in library and the sample
    collection. *)
Lemma projector_idempotent_sample :
  (∀ g g' : GeoDataFrame geometry, to_crs 4326 g = inr g' →
     ∃ k, crs g' = Some k ∧ to_epsg k = Some 4326)
  ∧ ∃ s, (loader sample;; cleaner;; partitioner) init = Done tt s
      ∧ (projector;; projector) s = projector s
      ∧ (∀ s1, projector s = Done tt s1 → projector s1 = Done tt s1)
      ∧ ((∃ k, crs sample = Some k ∧ to_epsg k = Some 4326) →
         projector s = Done tt s).
Proof.
  split; [exact retag_tags|].
  eexists. split; [vm_compute; reflexivity|].
  apply (projector_idempotent sample); [exact retag_tags|].
  vm_compute. reflexivity.
Defined.

(** The hypotheses of C10 hold of the stand-in library and the sample without
    a ward of Block 6. *)
Lemma empty_highlight_fails_sample :
  lat_lon (centroid (unary_union ([] : list geometry))) = None
  ∧ (∀ g g' : GeoDataFrame geometry,
       to_crs 4326 g = inr g' → rows g = [] → rows g' = [])
  ∧ ∃ s b,
      (loader sample_no_block6;; cleaner;; partitioner) init = Done tt s
      ∧ frame_of s "block6_gdf" = Some b
      ∧ rows b = []
      ∧ ∃ e s',
          script sample_no_block6 init = Raised e s'
          ∧ Forall (λ ev, is_output ev = false) (trace s')
          ∧ (∀ s1, projector s = Done tt s1 →
               e = CentreError ∧ renderer s1 = Raised CentreError s1).
Proof.
  split; [reflexivity|]. split; [exact retag_rows|].
  do 2 eexists. split; [vm_compute; reflexivity|].
  split; [vm_compute; reflexivity|]. split; [reflexivity|].
  eapply (empty_highlight_fails sample_no_block6).
  - reflexivity.
  - exact retag_rows.
  - vm_compute. reflexivity.
  - vm_compute. reflexivity.
  - reflexivity.
Defined.

(** ** The script on the samples *)

Example run_sample :
  ∃ s, run sample = Done tt s
    ∧ (λ e, match e with
            | SaveMap p _ | ToFile p _ | Mkdir p => p
            | Print _ => ""
            end) <$> filter (λ e, is_output e) (trace s)
      = [map_path; block6_geojson; block6_shp_dir; block6_shp]
    ∧ (λ g, label <$> rows g) <$> frame_of s "block6_gdf" = Some [1; 2; 4]
    ∧ (λ g, label <$> rows g) <$> frame_of s "other_gdf" = Some [0; 3].
Proof.
  eexists. split; [vm_compute; reflexivity|].
  split; [vm_compute; reflexivity|]. split; vm_compute; reflexivity.
Qed.

Example run_sample_bad_ward :
  ∃ s, run sample_bad_ward = Raised (CastError 1) s
    ∧ filter (λ e, is_output e) (trace s) = [].
Proof. eexists. split; vm_compute; reflexivity. Qed.

Example run_sample_no_block6 :
  ∃ s, run sample_no_block6 = Raised CentreError s
    ∧ filter (λ e, is_output e) (trace s) = [].
Proof. eexists. split; vm_compute; reflexivity. Qed.

Example py_int_text :
  py_int (VStr "429" : value geometry) = Some 429
  ∧ py_int (VStr "-12" : value geometry) = Some (-12)
  ∧ py_int (VStr "4.5" : value geometry) = None
  ∧ py_int (VStr "" : value geometry) = None
  ∧ py_int (VFloat (S754_finite true 5 (-1)) : value geometry) = Some (-2)
  ∧ py_int (VFloat S754_nan : value geometry) = None
  ∧ py_int (VStr " 429 " : value geometry) = Some 429
  ∧ py_int (VStr "+0429" : value geometry) = Some 429
  ∧ py_int (VStr "1_000" : value geometry) = Some 1000
  ∧ py_int (VStr "1__000" : value geometry) = None
  ∧ py_int (VStr "_429" : value geometry) = None
  ∧ py_int (VStr "429_" : value geometry) = None
  ∧ py_int (VStr "- 429" : value geometry) = None
  ∧ py_int (VStr "4 29" : value geometry) = None
  ∧ py_int (VStr "-" : value geometry) = None
  ∧ py_int (VStr "   " : value geometry) = None
  ∧ py_int (VStr "0x1AD" : value geometry) = None
  ∧ py_int (VStr "9223372036854775807" : value geometry)
    = Some 9223372036854775807
  ∧ py_int (VStr "9223372036854775808" : value geometry) = None
  ∧ py_int (VStr "-9223372036854775808" : value geometry)
    = Some (-9223372036854775808)
  ∧ py_int (VInt 9223372036854775808 : value geometry) = None
  ∧ py_int (VFloat (S754_infinity false) : value geometry) = None
  ∧ py_int (VNone : value geometry) = None.
Proof. by vm_compute. Qed.

(** ** The further properties on the samples *)

Lemma completed_run_outputs_sample :
  ∃ s, script sample init = Done tt s
    ∧ ∃ m b,
        outputs (trace s)
        = [SaveMap map_path m; ToFile block6_geojson b;
           Mkdir block6_shp_dir; ToFile block6_shp b]
        ∧ frame_of s "block6_gdf" = Some b
        ∧ frame_of s "gdf" = Some sample.
Proof.
  eexists. split; [vm_compute; reflexivity|].
  apply (completed_run_outputs sample). vm_compute. reflexivity.
Defined.

Lemma early_raise_writes_nothing_sample :
  (∃ s, (loader sample_bad_ward;; cleaner;; partitioner;; projector) init
        = Raised (CastError 1) s
      ∧ script sample_bad_ward init = Raised (CastError 1) s
      ∧ outputs (trace s) = [])
  ∧ (∃ s b, (loader sample_no_block6;; cleaner;; partitioner;; projector) init
            = Done tt s
      ∧ frame_of s "block6_gdf" = Some b
      ∧ centre b = inl CentreError
      ∧ script sample_no_block6 init = Raised CentreError s
      ∧ outputs (trace s) = []).
Proof.
  split.
  - eexists. split; [vm_compute; reflexivity|].
    apply (early_raise_writes_nothing sample_bad_ward _ (CastError 1)).
    left. vm_compute. reflexivity.
  - do 2 eexists. split; [vm_compute; reflexivity|].
    split; [vm_compute; reflexivity|]. split; [vm_compute; reflexivity|].
    apply (early_raise_writes_nothing sample_no_block6 _ CentreError).
    right. eexists. split; [vm_compute; reflexivity|].
    split; vm_compute; reflexivity.
Defined.

Lemma saved_map_labels_sample :
  ∃ s, script sample init = Done tt s
    ∧ ∃ m b o labels,
        head (outputs (trace s)) = Some (SaveMap map_path m)
        ∧ frame_of s "block6_gdf" = Some b
        ∧ frame_of s "other_gdf" = Some o
        ∧ lat_lon (centroid (unary_union (geometries b))) = Some (location m)
        ∧ zoom_start m = 14
        ∧ (∃ n1 n2,
             children m
             = [GeoJson n1 o ["Ward_No"]; GeoJson n2 b ["Ward_No"; "Population"]]
               ++ labels ++ [LayerControl])
        ∧ Forall2 (λ r l, ∃ x loc i,
             geometry_of b r = Some x ∧ lat_lon (centroid x) = Some loc
             ∧ col_pos "Ward_No" (columns b) = Some i
             ∧ l = Marker loc (cell_at i r)) (rows b) labels.
Proof.
  eexists. split; [vm_compute; reflexivity|].
  apply (saved_map_labels sample). vm_compute. reflexivity.
Defined.

Lemma exported_is_highlighted_sample :
  ∃ s, script sample init = Done tt s
    ∧ ∃ s3 b3 b,
        (loader sample;; cleaner;; partitioner) init = Done tt s3
        ∧ frame_of s3 "block6_gdf" = Some b3
        ∧ ToFile block6_geojson b ∈ trace s
        ∧ ToFile block6_shp b ∈ trace s
        ∧ ((∃ k, crs sample = Some k ∧ to_epsg k = Some 4326) →
           b = b3
           ∧ Forall (λ r, ∃ z, ward_no b r = Some z ∧ z ∈ block6_wards) (rows b))
        ∧ (¬ (∃ k, crs sample = Some k ∧ to_epsg k = Some 4326) →
           to_crs 4326 b3 = inr b).
Proof.
  eexists. split; [vm_compute; reflexivity|].
  apply (exported_is_highlighted sample). vm_compute. reflexivity.
Defined.

Lemma collections_do_not_alias_sample :
  ∃ s, script sample init = Done tt s
    ∧ ∃ l0 l1 l2 l3,
        globals s !! "gdf" = Some l0
        ∧ globals s !! "gdf_clean" = Some l1
        ∧ globals s !! "block6_gdf" = Some l2
        ∧ globals s !! "other_gdf" = Some l3
        ∧ NoDup [l0; l1; l2; l3]
        ∧ (∀ l, l ∈ [l0; l1; l2; l3] → is_Some (heap s !! l)).
Proof.
  eexists. split; [vm_compute; reflexivity|].
  apply (collections_do_not_alias sample). vm_compute. reflexivity.
Defined.

Lemma cleanup_keeps_records_sample :
  ∃ s, (loader sample;; cleaner) init = Done tt s
    ∧ ∃ c,
        frame_of s "gdf_clean" = Some c
        ∧ label <$> rows c = label <$> rows sample
        ∧ crs c = crs sample
        ∧ geometries c = geometries sample
        ∧ ∀ j name, columns sample !! j = Some name →
            name ≠ "Ward_No" → name ≠ "Population" →
            cell_at j <$> rows c = cell_at j <$> rows sample.
Proof.
  eexists. split; [vm_compute; reflexivity|].
  apply (cleanup_keeps_records sample). vm_compute. reflexivity.
Defined.

Lemma population_label_clash_sample :
  NoDup (columns sample_both)
  ∧ ∃ s, (loader sample_both;; cleaner) init = Done tt s
      ∧ ∃ c,
          frame_of s "gdf_clean" = Some c
          ∧ (NoDup (columns c)
             ↔ ¬ ("SUM_Final_" ∈ columns sample_both
                  ∧ "Population" ∈ columns sample_both)).
Proof.
  assert (NoDup (columns sample_both)) as Hnd.
  { cbn [columns sample_both].
    repeat (apply NoDup_cons; split;
      [rewrite ?not_elem_of_cons; repeat split; try done; apply not_elem_of_nil|]).
    apply NoDup_nil_2. }
  split; [done|].
  eexists. split; [vm_compute; reflexivity|].
  apply (population_label_clash sample_both); [done|]. vm_compute. reflexivity.
Defined.

Lemma existing_population_overwritten_sample :
  wf_frame sample_population
  ∧ ("SUM_Final_" ∉ columns sample_population)
  ∧ col_pos "Population" (columns sample_population) = Some 1%nat
  ∧ ∃ s, (loader sample_population;; cleaner) init = Done tt s
      ∧ ∃ c,
          frame_of s "gdf_clean" = Some c
          ∧ columns c = columns sample_population
          ∧ cell_at 1 <$> rows c = [VNone; VNone].
Proof.
  assert (wf_frame sample_population) as Hwf by (by repeat constructor).
  assert ("SUM_Final_" ∉ columns sample_population) as Hsum.
  { cbn [columns sample_population]. rewrite !not_elem_of_cons.
    repeat split; try done. apply not_elem_of_nil. }
  split; [done|]. split; [done|]. split; [reflexivity|].
  eexists. split; [vm_compute; reflexivity|].
  apply (existing_population_overwritten sample_population _ 1); [done..| |].
  - reflexivity.
  - vm_compute. reflexivity.
Defined.

Lemma printed_wards_sample :
  ∃ s0, (loader sample;; cleaner) init = Done tt s0
    ∧ ∃ s b l,
        partitioner s0 = Done tt s
        ∧ frame_of s "block6_gdf" = Some b
        ∧ last (trace s) = Some (Print (PWards l))
        ∧ Sorted Z.le l
        ∧ NoDup l
        ∧ (∀ z, z ∈ l ↔ ∃ r, r ∈ rows b ∧ ward_no b r = Some z)
        ∧ (∀ z, z ∈ l → z ∈ block6_wards)
        ∧ (length l ≤ 6)%nat.
Proof.
  eexists. split; [vm_compute; reflexivity|].
  apply (printed_wards sample). vm_compute. reflexivity.
Defined.

Lemma subsets_schema_sample :
  ∃ s0, (loader sample;; cleaner) init = Done tt s0
    ∧ partitioned s0 (λ c b o,
        columns b = columns c ∧ columns o = columns c
        ∧ crs b = crs sample ∧ crs o = crs sample
        ∧ "Ward_No" ∈ columns o
        ∧ "Ward_No" ∈ columns b ∧ "Population" ∈ columns b).
Proof.
  eexists. split; [vm_compute; reflexivity|].
  apply (subsets_schema sample). vm_compute. reflexivity.
Defined.
